(** * Centre dashboard: the data loader, the aggregations and the row filter

    A shallow embedding of [center_database_v2.py] (the loader
    [load_all_centers_data], [calculate_metrics], the chart tables and the
    tables built inside [render_center_database]) and of the loader of
    [center_database.py].

    A pandas [DataFrame] is a header (the column labels, in order) and a list
    of rows; a row maps a label to a cell, and a label without an entry reads
    as the missing value.  A number is the value of an [int64] or [float64]
    cell, a rational.  What the library itself computes (the white space
    [str.strip] removes, text read as a number or a date, the floating-point
    sum and mean of a column or of a group) is a parameter of the
    development, the class [Pandas]. *)

From Stdlib Require Import Ascii String QArith Qcanon.
From stdpp Require Import base decidable option numbers list sorting strings gmap fin_maps.

Local Open Scope Z_scope.
Local Open Scope string_scope.
Local Open Scope list_scope.

(** ** Cells *)

Inductive cell : Type :=
  | NaN                 (* missing value: NaN, None, NaT *)
  | Num (q : Qc)        (* a number *)
  | Str (s : string)    (* text *)
  | Time (t : Z).       (* a timestamp *)

Global Instance cell_eq_dec : EqDecision cell.
Proof. solve_decision. Defined.

Definition isna (c : cell) : bool :=
  match c with NaN => true | _ => false end.

(** What Python and pandas do inside the calls the dashboard makes.  A
    label is the UTF-8 encoding of a Python string.  A date is read in the
    format pandas infers from the column it stands in, so the readers of
    dates are given the column.  A numeric column is handed over as the
    list of its values, [None] being NaN. *)
Class Pandas : Type := {
  strip : string → string;               (* [str.strip] on a column label *)
  text_number : string → option Qc;      (* text read as a number *)
  time_number : Z → option Qc;           (* a timestamp read as a number *)
  text_time : list cell → string → option Z;   (* text read as a timestamp *)
  number_time : list cell → Qc → option Z;     (* a number read as a timestamp *)
  time_time : list cell → Z → option Z;  (* a timestamp kept, when in range *)
  nansum : list (option Qc) → Qc;        (* [Series.sum()] *)
  nanmean : list (option Qc) → Qc;       (* [Series.mean()], some value present *)
  group_sum : list (option Qc) → Qc;     (* 'sum' over one group of [groupby] *)
  group_mean : list (option Qc) → Qc;    (* 'mean' over one group, some value present *)
  str_exception : list string → string   (* [str(e)] of what the loader's [try]
                                            block raises on a header *)
}.

(** ** Frames *)

Record DataFrame : Type := mkFrame {
  columns : list string;
  rows : list (gmap string cell)
}.

(** [row[c]]; when the header repeats [c], the first column of that name. *)
Definition get (c : string) (r : gmap string cell) : cell :=
  default NaN (r !! c).

(** [pd.DataFrame()] *)
Definition empty_frame : DataFrame := mkFrame [] [].

(** [df.empty]: some axis has length zero. *)
Definition empty (df : DataFrame) : bool :=
  match columns df, rows df with
  | _ :: _, _ :: _ => false
  | _, _ => true
  end.

(** [c in df.columns] *)
Definition has_column (c : string) (df : DataFrame) : bool :=
  bool_decide (c ∈ columns df).

(** How many columns carry the label [c]. *)
Definition count_label (c : string) (hdr : list string) : nat :=
  length (filter (λ k, k = c) hdr).

(** [df[c] = f(row)]: an existing column is overwritten in place, a new one
    is appended to the header. *)
Definition set_column (c : string) (f : gmap string cell → cell)
    (df : DataFrame) : DataFrame :=
  mkFrame (if has_column c df then columns df else columns df ++ [c])
          (map (λ r, <[c := f r]> r) (rows df)).

(** [df.dropna(how="all")]: a row goes when every column of it is missing. *)
Definition all_na (cols : list string) (r : gmap string cell) : bool :=
  forallb (λ c, isna (get c r)) cols.

Definition dropna_all (df : DataFrame) : DataFrame :=
  mkFrame (columns df) (filter (λ r, all_na (columns df) r = false) (rows df)).

(** [df[c].unique()] and [df[c].nunique()] (the latter leaves NaN out). *)
Definition column (c : string) (df : DataFrame) : list cell :=
  map (get c) (rows df).

Definition unique (l : list cell) : list cell := remove_dups l.

Definition nunique (l : list cell) : nat :=
  length (remove_dups (filter (λ c, isna c = false) l)).

(** [Series.unique()] with the values in the order in which they first
    appear, a missing value included. *)
Definition unique_in_order (l : list cell) : list cell :=
  reverse (remove_dups (reverse l)).

(** [Series.fillna(v)] on one numeric cell. *)
Definition fillna (v : Qc) (o : option Qc) : cell :=
  Num (default v o).

Section Frames.
Context `{Pandas}.

(** [pd.to_numeric(_, errors="coerce")] on one cell, [None] being NaN. *)
Definition to_numeric (c : cell) : option Qc :=
  match c with
  | NaN => None
  | Num q => Some q
  | Str s => text_number s
  | Time t => time_number t
  end.

(** [pd.to_datetime(_, errors="coerce")] on one cell of the column [col],
    NaT being [NaN]. *)
Definition to_datetime (col : list cell) (c : cell) : cell :=
  match c with
  | NaN => NaN
  | Num q => from_option Time NaN (number_time col q)
  | Str s => from_option Time NaN (text_time col s)
  | Time t => from_option Time NaN (time_time col t)
  end.

(** [df.columns = df.columns.str.strip()]: the cells stay where they are and
    are read under the stripped label. *)
Definition strip_row (df : DataFrame) (r : gmap string cell) : gmap string cell :=
  list_to_map (map (λ c, (strip c, get c r)) (columns df)).

Definition strip_columns (df : DataFrame) : DataFrame :=
  mkFrame (map strip (columns df)) (map (strip_row df) (rows df)).

End Frames.

(** ** Reading the workbook *)

(** What [pd.read_excel] does: a frame, or one of the two exceptions the
    loaders tell apart. *)
Inductive read_excel_result : Type :=
  | Parsed (df : DataFrame)
  | FileNotFoundError
  | OtherException (e : string).

(** What the loaders show on the page. *)
Inductive message : Type :=
  | st_success (programs centres : nat)
  | st_error_file_not_found
  | st_info_place_file
  | st_error_loading (e : string)
  | st_warning_sample_data (center_name : string).

Module V2.

(** ** Where the [try] block raises

    After stripping, two columns can carry the same label [c]; [df[c]] is
    then a frame and not a series.  The statements of the loader that read
    or write such a label raise, and the [except Exception] clause answers
    with an error on the page and the empty frame. *)

(** [df[key] = df[src]]: a [ValueError] when [df[src]] is a frame and
    [df[key]] does not have as many columns. *)
Definition copy_raises (key src : string) (hdr : list string) : bool :=
  (1 <? count_label src hdr)%nat &&
  negb (count_label src hdr =? count_label key hdr)%nat.

(** [pd.to_datetime(df[c], ...)], [pd.to_numeric(df[c], ...)] and
    [df[c].unique()]: a [ValueError], a [TypeError] and an [AttributeError]
    when [df[c]] is a frame. *)
Definition series_raises (c : string) (hdr : list string) : bool :=
  (1 <? count_label c hdr)%nat.

(** Whether some statement between the stripping of the header and
    [st.success] raises, told from the stripped header. *)
Definition raises (hdr : list string) : bool :=
  (if bool_decide ("Location Name" ∈ hdr)
   then copy_raises "Centre" "Location Name" hdr
   else if bool_decide ("Location" ∈ hdr)
   then copy_raises "Centre" "Location" hdr
   else if bool_decide ("Center" ∈ hdr)
   then copy_raises "Centre" "Center" hdr
   else false)
  || (if bool_decide ("Program Name" ∈ hdr)
      then copy_raises "Program" "Program Name" hdr
      else if bool_decide ("Course Name" ∈ hdr)
      then copy_raises "Program" "Course Name" hdr
      else false)
  || series_raises "Date" hdr
  || series_raises "Participants" hdr
  || series_raises "Satisfaction" hdr
  || (if bool_decide ("Target Audience" ∈ hdr)
      then copy_raises "Category" "Target Audience" hdr
      else false)
  || series_raises "Centre" hdr.

(** ** Copying a column

    [df[key] = df[src]] where nothing raises.  A series is written cell by
    cell into the column [key] (into every column [key], when the header
    repeats the label), with one exception: when the header repeats [key]
    as many times as the frame has rows, [DataFrame.__setitem__] takes the
    series for a list of values, one per column [key], and the first
    column [key] gets the first value of the series in all its rows. *)
Definition spreads (key src : string) (df : DataFrame) : bool :=
  (count_label src (columns df) =? 1)%nat &&
  (1 <? count_label key (columns df))%nat &&
  (count_label key (columns df) =? length (rows df))%nat.

Definition copy_column (key src : string) (df : DataFrame) : DataFrame :=
  if spreads key src df
  then set_column key (λ _, from_option (get src) NaN (hd_error (rows df))) df
  else set_column key (get src) df.

Section Dashboard.
Context `{Pandas}.

Definition resolve_centre (df : DataFrame) : DataFrame :=
  if has_column "Location Name" df then
    copy_column "Centre" "Location Name" df
  else if has_column "Location" df then
    copy_column "Centre" "Location" df
  else if has_column "Center" df then
    copy_column "Centre" "Center" df
  else
    set_column "Centre" (λ _, Str "ICCO") df.

Definition resolve_program (df : DataFrame) : DataFrame :=
  if has_column "Program Name" df then
    copy_column "Program" "Program Name" df
  else if has_column "Course Name" df then
    copy_column "Program" "Course Name" df
  else if negb (has_column "Program" df) then
    set_column "Program" (λ _, Str "Program") df
  else df.

Definition resolve_date (df : DataFrame) : DataFrame :=
  if has_column "Date" df then
    set_column "Date" (λ r, to_datetime (column "Date" df) (get "Date" r)) df
  else df.

Definition resolve_participants (df : DataFrame) : DataFrame :=
  if negb (has_column "Participants" df) then
    set_column "Participants" (λ _, Num (Qc_of_Z 1)) df
  else
    set_column "Participants"
      (λ r, fillna (Qc_of_Z 1) (to_numeric (get "Participants" r))) df.

Definition resolve_satisfaction (df : DataFrame) : DataFrame :=
  if negb (has_column "Satisfaction" df) then
    set_column "Satisfaction" (λ _, Num (Qc_of_Z 4)) df
  else
    set_column "Satisfaction"
      (λ r, fillna (Qc_of_Z 4) (to_numeric (get "Satisfaction" r))) df.

Definition resolve_category (df : DataFrame) : DataFrame :=
  if has_column "Target Audience" df then
    copy_column "Category" "Target Audience" df
  else if negb (has_column "Category" df) then
    set_column "Category" (λ _, Str "General") df
  else df.

(** The body of the [try] block, from the stripped header to [dropna],
    when no statement of it raises. *)
Definition normalize (df : DataFrame) : DataFrame :=
  dropna_all
    (resolve_category
      (resolve_satisfaction
        (resolve_participants
          (resolve_date
            (resolve_program
              (resolve_centre
                (strip_columns df))))))).

Definition load_all_centers_data (file : read_excel_result)
    : DataFrame * list message :=
  match file with
  | Parsed df =>
      let hdr := map strip (columns df) in
      if raises hdr then
        (empty_frame, [st_error_loading (str_exception hdr)])
      else
        let df := normalize df in
        (df, [st_success (length (rows df))
                         (length (unique (column "Centre" df)))])
  | FileNotFoundError =>
      (empty_frame, [st_error_file_not_found; st_info_place_file])
  | OtherException e =>
      (empty_frame, [st_error_loading e])
  end.

(** ** Series arithmetic *)

(** The value of a cell of a numeric column; NaN is skipped by [sum] and
    [mean].  After the loader a Participants or Satisfaction cell is always
    a number. *)
Definition number (c : cell) : option Qc :=
  match c with Num q => Some q | _ => None end.

(** [Series.sum()] *)
Definition series_sum (l : list cell) : Qc := nansum (map number l).

(** [Series.mean()]: NaN when nothing is left to average. *)
Definition series_mean (l : list cell) : cell :=
  match omap number l with
  | [] => NaN
  | _ => Num (nanmean (map number l))
  end.

(** [int(x)]: truncation towards zero. *)
Definition int (q : Qc) : Z := Z.quot (Qnum q) (Zpos (Qden q)).

(** ** Key metrics *)

Record metrics : Type := mkMetrics {
  total_programs : nat;
  total_participants : Z;
  avg_satisfaction : cell;
  unique_programs : nat;
  target_audiences : nat
}.

Definition calculate_metrics (df : DataFrame) : metrics :=
  if empty df then
    mkMetrics 0 0 (Num (Qc_of_Z 0)) 0 0
  else
    mkMetrics (length (rows df))
              (int (series_sum (column "Participants" df)))
              (series_mean (column "Satisfaction" df))
              (nunique (column "Program" df))
              (nunique (column "Category" df)).

(** ** Grouping *)

(** The order in which group keys come out of [groupby]: numbers by value,
    text by code point; across kinds numbers, then timestamps, then text. *)
Definition key_le (a b : cell) : Prop :=
  match a, b with
  | NaN, _ => True
  | _, NaN => False
  | Num x, Num y => (x ≤ y)%Qc
  | Num _, _ => True
  | _, Num _ => False
  | Time x, Time y => (x ≤ y)%Z
  | Time _, _ => True
  | _, Time _ => False
  | Str s, Str t => String.leb s t = true
  end.

Global Instance key_le_dec : RelDecision key_le.
Proof. intros [] []; simpl; apply _. Defined.

(** The keys of [df.groupby(key)]: the values of the column that are not
    missing, once each, in key order. *)
Definition group_keys (key : string) (df : DataFrame) : list cell :=
  merge_sort key_le
    (remove_dups (filter (λ c, isna c = false) (column key df))).

(** One line of [groupby(key).agg({'Participants': 'sum',
    'Satisfaction': 'mean'})]. *)
Record group : Type := mkGroup {
  g_key : cell;
  g_participants : Qc;
  g_satisfaction : cell
}.

Definition members (key : string) (k : cell) (df : DataFrame)
    : list (gmap string cell) :=
  filter (λ r, get key r = k) (rows df).

(** 'sum' and 'mean' over the cells of one group. *)
Definition agg_sum (l : list cell) : Qc := group_sum (map number l).

Definition agg_mean (l : list cell) : cell :=
  match omap number l with
  | [] => NaN
  | _ => Num (group_mean (map number l))
  end.

Definition groupby_agg (key : string) (df : DataFrame) : list group :=
  map (λ k, let rs := members key k df in
            mkGroup k (agg_sum (map (get "Participants") rs))
                      (agg_mean (map (get "Satisfaction") rs)))
      (group_keys key df).

(** [sort_values('Participants', ascending=False)].  pandas does not say in
    which order groups with equal sums come out; here they keep the order
    they had. *)
Definition by_participants_desc (a b : group) : Prop :=
  (g_participants b ≤ g_participants a)%Qc.

Global Instance by_participants_desc_dec : RelDecision by_participants_desc.
Proof. intros a b. unfold by_participants_desc. apply _. Defined.

Definition sort_by_participants (l : list group) : list group :=
  merge_sort by_participants_desc l.

(** [head(n)] *)
Definition head {A} (n : nat) (l : list A) : list A := take n l.

(** ** Chart tables *)

(** [Series.value_counts()]: how often each value that is not missing
    occurs, the most frequent first. *)
Definition occurrences (k : cell) (l : list cell) : nat :=
  length (filter (λ c, c = k) l).

Definition by_count_desc (a b : cell * nat) : Prop := (b.2 ≤ a.2)%nat.

Global Instance by_count_desc_dec : RelDecision by_count_desc.
Proof. intros a b. unfold by_count_desc. apply _. Defined.

Definition value_counts (l : list cell) : list (cell * nat) :=
  merge_sort by_count_desc
    (map (λ k, (k, occurrences k l))
         (remove_dups (filter (λ c, isna c = false) l))).

(** The table behind the figure of [create_program_distribution]; the empty
    figure is the empty table. *)
Definition create_program_distribution (df : DataFrame) : list (cell * nat) :=
  if empty df then []
  else head 10 (value_counts (column "Program" df)).

(** The table behind the two traces of [create_program_participants]. *)
Definition create_program_participants (df : DataFrame) : list group :=
  if empty df then []
  else head 10 (sort_by_participants (groupby_agg "Program" df)).

(** ** The tables of [render_center_database] *)

(** [df_all[df_all['Centre'] == selected_centre]]; a missing value equals
    nothing, itself included. *)
Definition df_centre (df_all : DataFrame) (selected_centre : cell) : DataFrame :=
  mkFrame (columns df_all)
          (filter (λ r, get "Centre" r = selected_centre ∧ selected_centre ≠ NaN)
                  (rows df_all)).

Definition program_perf (df : DataFrame) : list group :=
  head 10 (sort_by_participants (groupby_agg "Program" df)).

Definition audience_perf (df : DataFrame) : list group :=
  sort_by_participants (groupby_agg "Category" df).

(** The three masks of the raw-data tab and the rows they select. *)
Definition isin (l values : list cell) : list bool :=
  map (λ c, bool_decide (c ∈ values)) l.

(** [series >= x]; a missing value compares false. *)
Definition ge_scalar (l : list cell) (x : Qc) : list bool :=
  map (λ c, match c with Num q => bool_decide (x ≤ q)%Qc | _ => false end) l.

Definition mask_and (a b : list bool) : list bool := zip_with andb a b.

(** [df[mask]] *)
Fixpoint boolean_index (rs : list (gmap string cell)) (mask : list bool)
    : list (gmap string cell) :=
  match rs, mask with
  | r :: rs', b :: mask' =>
      if b then r :: boolean_index rs' mask' else boolean_index rs' mask'
  | _, _ => []
  end.

Definition filtered_df (df_centre : DataFrame)
    (program_filter category_filter : list cell) (satisfaction_filter : Qc)
    : list (gmap string cell) :=
  boolean_index (rows df_centre)
    (mask_and
      (mask_and (isin (column "Program" df_centre) program_filter)
                (isin (column "Category" df_centre) category_filter))
      (ge_scalar (column "Satisfaction" df_centre) satisfaction_filter)).

(** ** The other chart tables *)

Definition colors : list string :=
  ["#667eea"; "#764ba2"; "#f093fb"; "#4facfe"; "#00f2fe"; "#6bcf7f";
   "#ffa726"].

(** The slices of the pie of [create_target_audience_breakdown] and the
    colours handed to it. *)
Definition create_target_audience_breakdown (df : DataFrame)
    : list (cell * nat) * list string :=
  if empty df then ([], [])
  else
    let audience_counts := value_counts (column "Category" df) in
    (audience_counts, take (length audience_counts) colors).

(** [value_counts().sort_index()]: the counts in key order. *)
Definition by_index (a b : cell * nat) : Prop := key_le a.1 b.1.

Global Instance by_index_dec : RelDecision by_index.
Proof. intros a b. unfold by_index. apply _. Defined.

Definition sort_index (l : list (cell * nat)) : list (cell * nat) :=
  merge_sort by_index l.

(** The text on a bar: a name for the ratings 1 to 5, and "Score i" for any
    other rating i. *)
Inductive bar_label : Type :=
  | Named (s : string)
  | Score (i : cell).

Definition integer_key (i : cell) : option Z :=
  match i with
  | Num q => if decide (q = Qc_of_Z (Qnum q)) then Some (Qnum q) else None
  | _ => None
  end.

Definition satisfaction_labels (i : cell) : option string :=
  match integer_key i with
  | Some 1 => Some "Very Poor"
  | Some 2 => Some "Poor"
  | Some 3 => Some "Neutral"
  | Some 4 => Some "Good"
  | Some 5 => Some "Excellent"
  | _ => None
  end.

Definition colors_map (i : cell) : option string :=
  match integer_key i with
  | Some 1 => Some "#ff6b6b"
  | Some 2 => Some "#ffa726"
  | Some 3 => Some "#ffd93d"
  | Some 4 => Some "#6bcf7f"
  | Some 5 => Some "#4ecdc4"
  | _ => None
  end.

Record bar : Type := mkBar {
  b_rating : cell;
  b_label : bar_label;
  b_count : nat;
  b_color : string
}.

Definition create_satisfaction_distribution (df : DataFrame) : list bar :=
  if empty df then []
  else
    let satisfaction_counts := sort_index (value_counts (column "Satisfaction" df)) in
    map (λ p, mkBar p.1 (from_option Named (Score p.1) (satisfaction_labels p.1))
                    p.2 (default "#667eea" (colors_map p.1)))
        satisfaction_counts.

Section Trend.
(** The month a timestamp falls in, [dt.to_period('M')]. *)
Variable to_period_M : Z → Z.

(** After the loader a Date cell is a timestamp or missing. *)
Definition month (c : cell) : option Z :=
  match c with Time t => Some (to_period_M t) | _ => None end.

(** The points of the line of [create_participants_trend]: the months that
    have a dated record, in order, each with its participants. *)
Definition create_participants_trend (df : DataFrame) : list (Z * Qc) :=
  if empty df || negb (has_column "Date" df) then []
  else
    let df_with_dates := filter (λ r, isna (get "Date" r) = false) (rows df) in
    match df_with_dates with
    | [] => []
    | _ =>
        map (λ m, (m, agg_sum
                        (map (get "Participants")
                             (filter (λ r, month (get "Date" r) = Some m)
                                     df_with_dates))))
            (merge_sort Z.le
               (remove_dups (omap (λ r, month (get "Date" r)) df_with_dates)))
    end.

End Trend.

(** ** The selections of [render_center_database] *)

(** Python's [sorted]: values of one kind are put in order, values of
    different kinds cannot be compared and raise a [TypeError] ([None]).
    A missing value is a float; where it lands among numbers is not
    modelled, and the lists sorted here hold none. *)
Definition kind (c : cell) : nat :=
  match c with NaN | Num _ => 1 | Str _ => 2 | Time _ => 3 end.

Definition comparable (l : list cell) : bool :=
  match l with
  | [] => true
  | c :: l' => forallb (λ c', (kind c' =? kind c)%nat) l'
  end.

Definition sorted (l : list cell) : option (list cell) :=
  if comparable l then Some (merge_sort key_le l) else None.

(** [sorted(df_all['Centre'].dropna().unique())] *)
Definition centre_list (df_all : DataFrame) : option (list cell) :=
  sorted (unique (filter (λ c, isna c = false) (column "Centre" df_all))).

(** [df_centre[df_centre['Category'] == selected_audience]] *)
Definition select_audience (df_centre : DataFrame) (selected_audience : cell)
    : DataFrame :=
  mkFrame (columns df_centre)
          (filter (λ r, get "Category" r = selected_audience ∧
                        selected_audience ≠ NaN) (rows df_centre)).

(** What the three widgets of the raw-data tab hold before the user touches
    them. *)
Definition default_program_filter (df_centre : DataFrame) : list cell :=
  if (0 <? length (rows df_centre))%nat
  then take 5 (unique_in_order (column "Program" df_centre))
  else [].

Definition default_category_filter (df_centre : DataFrame) : list cell :=
  unique_in_order (column "Category" df_centre).

Definition default_satisfaction_filter : Qc := Qc_of_Z 1.

End Dashboard.
End V2.

(** ** The loader of [center_database.py] *)

Module V1.

(** The draws of numpy's generator after [np.random.seed(42)], one per row
    and column. *)
Record draws : Type := {
  choice_date : nat → Z;
  choice_program : nat → nat;
  randint_participants : nat → Z;
  randint_satisfaction : nat → Z;
  choice_category : nat → nat;
  uniform_attendance : nat → Qc;
  randint_feedback : nat → Z
}.

Definition programs : list string :=
  ["Islamic Studies"; "Youth Program"; "Community Service";
   "Women Empowerment"; "Quran Classes"].

Definition categories : list string :=
  ["Engagement"; "Learning"; "Community"; "Feedback"; "Growth"].

Definition notes : list string :=
  ["Good engagement"; "High participation"; "Good feedback";
   "Excellent turnout"; "Need improvement"].

Definition pick (l : list string) (i : nat) : cell :=
  Str (nth (i mod length l) l EmptyString).

Definition sample_columns : list string :=
  ["Date"; "Program"; "Participants"; "Satisfaction"; "Category";
   "Attendance_Rate"; "Feedback_Score"; "Notes"].

Definition sample_row (rng : draws) (i : nat) : gmap string cell :=
  list_to_map
    [("Date", Time (choice_date rng i));
     ("Program", pick programs (choice_program rng i));
     ("Participants", Num (Qc_of_Z (randint_participants rng i)));
     ("Satisfaction", Num (Qc_of_Z (randint_satisfaction rng i)));
     ("Category", pick categories (choice_category rng i));
     ("Attendance_Rate", Num (uniform_attendance rng i));
     ("Feedback_Score", Num (Qc_of_Z (randint_feedback rng i)));
     ("Notes", pick notes i)].

Definition by_date (a b : gmap string cell) : Prop :=
  V2.key_le (get "Date" a) (get "Date" b).

Global Instance by_date_dec : RelDecision by_date.
Proof. intros a b. unfold by_date. apply _. Defined.

(** 500 rows, sorted by date. *)
Definition generate_sample_center_data (rng : draws) (center_name : string)
    : DataFrame :=
  mkFrame sample_columns
          (merge_sort by_date (map (sample_row rng) (seq 0 500))).

(** A call either returns a frame, with what it showed on the page, or lets
    an exception through. *)
Inductive outcome : Type :=
  | Returned (df : DataFrame) (shown : list message)
  | Raised (e : string).

Definition load_center_data (rng : draws) (center_name : string)
    (file : read_excel_result) : outcome :=
  match file with
  | Parsed df => Returned df []
  | FileNotFoundError =>
      Returned (generate_sample_center_data rng center_name)
               [st_warning_sample_data center_name]
  | OtherException e => Raised e
  end.

(** [Series.idxmax()]: the label of the first largest value; an empty
    series raises a [ValueError] ([None]). *)
Fixpoint idxmax (l : list (cell * nat)) : option (cell * nat) :=
  match l with
  | [] => None
  | x :: l' =>
      match idxmax l' with
      | None => Some x
      | Some y => if (y.2 <=? x.2)%nat then Some x else Some y
      end
  end.

(** [df[c].value_counts().idxmax() if len(df) > 0 else 'N/A']; [None] is
    the exception of a frame with rows in which the column has no value. *)
Definition top (c : string) (df : DataFrame) : option cell :=
  if (0 <? length (rows df))%nat
  then fst <$> idxmax (V2.value_counts (column c df))
  else Some (Str "N/A").

Definition top_program (df : DataFrame) : option cell := top "Program" df.

Definition top_category (df : DataFrame) : option cell := top "Category" df.

End V1.

(** ** Predicates used by the statements *)

(** A sequence of canonical records: the two numeric columns hold numbers. *)
Definition canonical (df : DataFrame) : Prop :=
  ∀ r, r ∈ rows df →
    (∃ p, get "Participants" r = Num p) ∧ (∃ s, get "Satisfaction" r = Num s).

(** [df'] is [df] with the cell [v r] written in column [c] of every row
    [r], and nothing else changed. *)
Definition writes (c : string) (v : gmap string cell → cell)
    (df df' : DataFrame) : Prop :=
  ∃ g : gmap string cell → gmap string cell,
    rows df' = map g (rows df) ∧
    (∀ r, get c (g r) = v r) ∧
    (∀ r k, k ≠ c → get k (g r) = get k r) ∧
    (∀ k, k ≠ c → has_column k df' = has_column k df) ∧
    (has_column c df = true → has_column c df' = true) ∧
    (∀ k, k ≠ c → count_label k (columns df') = count_label k (columns df)).

(** The cell [df[key] = df[src]] writes in the row [r] of [df]. *)
Definition copied (key src : string) (df : DataFrame) (r : gmap string cell)
    : cell :=
  if V2.spreads key src df
  then from_option (get src) NaN (hd_error (rows df))
  else get src r.

Section Values.
Context `{Pandas}.

(** Stripping the labels of [t] merges no two of them. *)
Definition header_ok (t : DataFrame) : Prop :=
  NoDup (map strip (columns t)).

(** What the loader leaves in each resolved column of a row, read off the
    frame with the stripped header. *)
Definition centre_value (df : DataFrame) (r : gmap string cell) : cell :=
  if has_column "Location Name" df then copied "Centre" "Location Name" df r
  else if has_column "Location" df then copied "Centre" "Location" df r
  else if has_column "Center" df then copied "Centre" "Center" df r
  else Str "ICCO".

Definition program_value (df : DataFrame) (r : gmap string cell) : cell :=
  if has_column "Program Name" df then copied "Program" "Program Name" df r
  else if has_column "Course Name" df then copied "Program" "Course Name" df r
  else if has_column "Program" df then get "Program" r
  else Str "Program".

Definition date_value (df : DataFrame) (r : gmap string cell) : cell :=
  if has_column "Date" df
  then to_datetime (column "Date" df) (get "Date" r)
  else get "Date" r.

Definition participants_value (df : DataFrame) (r : gmap string cell) : cell :=
  if has_column "Participants" df
  then fillna (Qc_of_Z 1) (to_numeric (get "Participants" r))
  else Num (Qc_of_Z 1).

Definition satisfaction_value (df : DataFrame) (r : gmap string cell) : cell :=
  if has_column "Satisfaction" df
  then fillna (Qc_of_Z 4) (to_numeric (get "Satisfaction" r))
  else Num (Qc_of_Z 4).

Definition category_value (df : DataFrame) (r : gmap string cell) : cell :=
  if has_column "Target Audience" df
  then copied "Category" "Target Audience" df r
  else if has_column "Category" df then get "Category" r
  else Str "General".

(** [g] is the line of a grouped table for the records of [df] that have
    the value [g_key g] in the column [key], of which there is one at
    least: their participants added up and their ratings averaged, as
    [groupby] does it. *)
Definition line_of (key : string) (df : DataFrame) (g : V2.group) : Prop :=
  let rs := filter (λ r, get key r = V2.g_key g) (rows df) in
  V2.g_key g ≠ NaN ∧ rs ≠ [] ∧
  V2.g_participants g
  = group_sum (map (λ r, V2.number (get "Participants" r)) rs) ∧
  V2.g_satisfaction g
  = Num (group_mean (map (λ r, V2.number (get "Satisfaction" r)) rs)).

End Values.

(** The header after [df[c] = ...]. *)
Definition add_column (c : string) (cols : list string) : list string :=
  if bool_decide (c ∈ cols) then cols else cols ++ [c].

(** The columns the loader resolves. *)
Definition resolved_columns : list string :=
  ["Centre"; "Program"; "Participants"; "Satisfaction"; "Category"].

(** The rating of a record is at least [x]. *)
Definition rating_at_least (x : Qc) (r : gmap string cell) : Prop :=
  match get "Satisfaction" r with
  | Num s => (x ≤ s)%Qc
  | _ => False
  end.

Global Instance rating_at_least_dec x r : Decision (rating_at_least x r).
Proof. unfold rating_at_least. destruct (get "Satisfaction" r); apply _. Defined.

(** The workbook could not be read. *)
Definition failed (file : read_excel_result) : Prop :=
  match file with
  | Parsed _ => False
  | FileNotFoundError | OtherException _ => True
  end.

(** ** Worked tables *)

(** Python's white space: the code points for which [str.isspace] holds,
    U+0009 to U+000D, U+001C to U+0020, U+0085, U+00A0, U+1680, U+2000 to
    U+200A, U+2028, U+2029, U+202F, U+205F and U+3000, in UTF-8. *)
Definition utf8 (bytes : list nat) : string :=
  string_of_list_ascii (map ascii_of_nat bytes).

Definition white_space : list string :=
  map utf8
    [[9]; [10]; [11]; [12]; [13]; [28]; [29]; [30]; [31]; [32];
     [194; 133]; [194; 160]; [225; 154; 128];
     [226; 128; 128]; [226; 128; 129]; [226; 128; 130]; [226; 128; 131];
     [226; 128; 132]; [226; 128; 133]; [226; 128; 134]; [226; 128; 135];
     [226; 128; 136]; [226; 128; 137]; [226; 128; 138];
     [226; 128; 168]; [226; 128; 169]; [226; 128; 175];
     [226; 129; 159]; [227; 128; 128]]%nat.

(** [s] without the prefix [w], when it starts with it. *)
Fixpoint skip (w s : string) : option string :=
  match w, s with
  | EmptyString, _ => Some s
  | String a w', String b s' => if Ascii.eqb a b then skip w' s' else None
  | String _ _, EmptyString => None
  end.

Definition skip_one (ws : list string) (s : string) : option string :=
  foldr (λ w o, match skip w s with Some s' => Some s' | None => o end) None ws.

Fixpoint lstrip_with (ws : list string) (n : nat) (s : string) : string :=
  match n with
  | O => s
  | S n' =>
      match skip_one ws s with
      | Some s' => lstrip_with ws n' s'
      | None => s
      end
  end.

Definition lstrip (s : string) : string :=
  lstrip_with white_space (String.length s) s.

Definition rstrip (s : string) : string :=
  String.rev
    (lstrip_with (map String.rev white_space) (String.length s) (String.rev s)).

(** [str.strip] *)
Definition str_strip (s : string) : string := rstrip (lstrip s).

(** Unsigned decimal numerals. *)
Fixpoint digits (s : string) (acc : Z) : option Z :=
  match s with
  | EmptyString => Some acc
  | String a s' =>
      let n := nat_of_ascii a in
      if ((48 <=? n)%nat && (n <=? 57)%nat)%bool
      then digits s' (10 * acc + Z.of_nat (n - 48))
      else None
  end.

Definition Qc_sum (l : list Qc) : Qc := foldr Qcplus (Qc_of_Z 0) l.

Definition exact_sum (l : list (option Qc)) : Qc := Qc_sum (omap id l).

Definition exact_mean (l : list (option Qc)) : Qc :=
  (Qc_sum (omap id l) / Qc_of_Z (Z.of_nat (length (omap id l))))%Qc.

(** The library on the worked tables: labels lose Python's white space,
    text is a number when it is an unsigned decimal numeral, a timestamp
    is kept and nothing else is a date (the tables hold no date written as
    text or as a number), and sums and means are exact, as the
    floating-point ones are on the small whole numbers of these tables. *)
Definition numerals : Pandas := {|
  strip := str_strip;
  text_number := λ s,
    match s with
    | EmptyString => None
    | _ => Qc_of_Z <$> digits s 0
    end;
  time_number := λ _, None;
  text_time := λ _ _, None;
  number_time := λ _ _, None;
  time_time := λ _ t, Some t;
  nansum := exact_sum;
  nanmean := exact_mean;
  group_sum := exact_sum;
  group_mean := exact_mean;
  str_exception := λ _, "exception"
|}.

Definition row_of (l : list (string * cell)) : gmap string cell := list_to_map l.

Definition int_cell (n : Z) : cell := Num (Qc_of_Z n).

(** The two rows of the end-to-end example. *)
Definition quran_table : DataFrame :=
  mkFrame ["Location"; "Program"; "Participants"; "Satisfaction"]
    [row_of [("Location", Str "A"); ("Program", Str "Quran Classes");
             ("Participants", int_cell 10); ("Satisfaction", int_cell 5)];
     row_of [("Location", Str "A"); ("Program", Str "Quran Classes")]].

(** A rating of 7, a rating written as text, and a rating left out. *)
Definition ratings_table : DataFrame :=
  mkFrame ["Program"; " Satisfaction "]
    [row_of [("Program", Str "Tafsir"); (" Satisfaction ", int_cell 7)];
     row_of [("Program", Str "Tafsir"); (" Satisfaction ", Str "good")];
     row_of [("Program", Str "Tafsir")]].


(** A row without a single value, between two rows that have values. *)
Definition blank_table : DataFrame :=
  mkFrame ["Location"; "Program"]
    [row_of [("Location", Str "A"); ("Program", Str "Tafsir")];
     row_of [];
     row_of [("Location", Str "B"); ("Program", Str "Halaqa")]].


(** Two location columns. *)
Definition two_locations_table : DataFrame :=
  mkFrame ["Location"; "Location Name "]
    [row_of [("Location", Str "Y"); ("Location Name ", Str "X")]].

(** Two columns that are both Location once stripped. *)
Definition repeated_location_table : DataFrame :=
  mkFrame ["Location"; "Location "; "Program"]
    [row_of [("Location", Str "A"); ("Location ", Str "B");
             ("Program", Str "Tafsir")]].

(** Eleven sessions, each for an audience of its own. *)
Definition audiences : list string :=
  ["Men"; "Women"; "Youth"; "Children"; "Seniors"; "Families"; "Converts";
   "Students"; "Teachers"; "Volunteers"; "Visitors"].

Definition audiences_table : DataFrame :=
  mkFrame ["Program"; "Target Audience"]
    (map (λ a, row_of [("Program", Str "Open Day"); ("Target Audience", Str a)])
         audiences).

(** Draws that follow the row number. *)
Definition counting_draws : V1.draws := {|
  V1.choice_date := λ i, Z.of_nat (i mod 366);
  V1.choice_program := λ i, i;
  V1.randint_participants := λ i, 5 + Z.of_nat (i mod 95);
  V1.randint_satisfaction := λ i, 1 + Z.of_nat (i mod 5);
  V1.choice_category := λ i, i;
  V1.uniform_attendance := λ _, Q2Qc (4 # 5);
  V1.randint_feedback := λ i, 1 + Z.of_nat (i mod 9)
|}.

(** Dates as they come: a timestamp, text, nothing. *)
Definition dated_table : DataFrame :=
  mkFrame ["Program"; "Date"; "Participants"]
    [row_of [("Program", Str "Halaqa"); ("Date", Time 10);
             ("Participants", int_cell 12)];
     row_of [("Program", Str "Halaqa"); ("Date", Str "soon");
             ("Participants", int_cell 7)];
     row_of [("Program", Str "Halaqa"); ("Participants", int_cell 3)]].

(** Three canonical records of two centres. *)
Definition dashboard_frame : DataFrame :=
  mkFrame ["Centre"; "Program"; "Participants"; "Satisfaction"; "Category"]
    [row_of [("Centre", Str "A"); ("Program", Str "Quran Classes");
             ("Participants", int_cell 10); ("Satisfaction", int_cell 5);
             ("Category", Str "Youth")];
     row_of [("Centre", Str "A"); ("Program", Str "Tafsir");
             ("Participants", int_cell 4); ("Satisfaction", int_cell 3);
             ("Category", Str "Women")];
     row_of [("Centre", Str "B"); ("Program", Str "Quran Classes");
             ("Participants", int_cell 6); ("Satisfaction", int_cell 4);
             ("Category", Str "Youth")]].

(** A canonical record. *)
Definition session (program : string) (participants satisfaction : Z)
    : gmap string cell :=
  row_of [("Centre", Str "A"); ("Program", Str program);
          ("Participants", int_cell participants);
          ("Satisfaction", int_cell satisfaction); ("Category", Str "Youth")].

Definition sessions_frame (l : list (gmap string cell)) : DataFrame :=
  mkFrame ["Centre"; "Program"; "Participants"; "Satisfaction"; "Category"] l.

(** One session of ten, and two sessions of five, with the same rating. *)
Definition one_session : DataFrame :=
  sessions_frame [session "Tafsir" 10 4].

Definition two_sessions : DataFrame :=
  sessions_frame [session "Tafsir" 5 4; session "Tafsir" 5 4].

(** Eleven programmes with one session each, Story Time the smallest. *)
Definition eleven_programmes : DataFrame :=
  sessions_frame
    [session "Quran Classes" 40 5; session "Tafsir" 35 4;
     session "Arabic" 30 4; session "Halaqa" 25 5;
     session "Youth Camp" 20 3; session "Seerah" 18 4;
     session "Fiqh" 15 4; session "Tajweed" 12 5;
     session "Sisters Circle" 10 4; session "Open Day" 8 3;
     session "Story Time" 3 5].

(** ** Facts about frames *)

Lemma get_insert_eq c v (r : gmap string cell) : get c (<[c := v]> r) = v.
Proof. unfold get. by rewrite lookup_insert_eq. Qed.

Lemma get_insert_ne c k v (r : gmap string cell) :
  k ≠ c → get k (<[c := v]> r) = get k r.
Proof. intros Hne. unfold get. by rewrite lookup_insert_ne. Qed.

Lemma has_column_true c df : has_column c df = true ↔ c ∈ columns df.
Proof. unfold has_column. apply bool_decide_eq_true. Qed.

Lemma has_column_false c df : has_column c df = false ↔ c ∉ columns df.
Proof. unfold has_column. apply bool_decide_eq_false. Qed.

Lemma has_column_set_column c f df : has_column c (set_column c f df) = true.
Proof.
  apply has_column_true. unfold set_column; simpl.
  destruct (has_column c df) eqn:E.
  - by apply has_column_true.
  - apply elem_of_app. right. by apply list_elem_of_singleton.
Qed.

Lemma has_column_set_column_ne c k f df :
  k ≠ c → has_column k (set_column c f df) = has_column k df.
Proof.
  intros Hne. unfold has_column at 1 2, set_column; simpl.
  destruct (has_column c df); [done |].
  apply bool_decide_ext. rewrite elem_of_app, list_elem_of_singleton. tauto.
Qed.

(** ** Labels that come once *)

Lemma count_label_cons c k hdr :
  count_label c (k :: hdr)
  = ((if decide (k = c) then 1 else 0) + count_label c hdr)%nat.
Proof. unfold count_label. rewrite filter_cons. by case_decide. Qed.

Lemma count_label_absent c hdr : c ∉ hdr → count_label c hdr = 0%nat.
Proof.
  induction hdr as [| k hdr IH]; [done |]. intros Hc.
  apply not_elem_of_cons in Hc as [Hne Hc].
  rewrite count_label_cons, decide_False by done. by apply IH.
Qed.

Lemma count_label_NoDup c hdr : NoDup hdr → (count_label c hdr ≤ 1)%nat.
Proof.
  induction 1 as [| k hdr Hk Hnd IH]; [unfold count_label; simpl; lia |].
  rewrite count_label_cons. case_decide as Hc; [| done].
  subst k. rewrite count_label_absent by done. lia.
Qed.

(** A label that comes once names one column. *)
Lemma count_label_unique {A} (f : A → string) k (l : list A) x y :
  (count_label k (map f l) ≤ 1)%nat →
  x ∈ l → y ∈ l → f x = k → f y = k → x = y.
Proof.
  induction l as [| a l IH]; intros Hone Hx Hy Hfx Hfy.
  { by apply elem_of_nil in Hx. }
  cbn [map] in Hone. rewrite count_label_cons in Hone.
  assert (∀ z, z ∈ l → f z = k → (1 ≤ count_label k (map f l))%nat) as Hpos.
  { intros z Hz Hfz. destruct (decide (k ∈ map f l)) as [Hin | Hout].
    - clear -Hin. induction (map f l) as [| b m IHm]; [by apply elem_of_nil in Hin |].
      rewrite count_label_cons. case_decide; [lia |].
      apply elem_of_cons in Hin as [-> | Hin]; [done |]. by apply IHm.
    - exfalso. apply Hout. rewrite <- Hfz. by apply (list_elem_of_fmap_2 f). }
  case_decide as Ha.
  - assert (∀ z, z ∈ l → f z = k → False) as Hnone.
    { intros z Hz Hfz. specialize (Hpos z Hz Hfz). lia. }
    apply elem_of_cons in Hx as [-> | Hx]; [| by destruct (Hnone x)].
    apply elem_of_cons in Hy as [-> | Hy]; [done | by destruct (Hnone y)].
  - apply elem_of_cons in Hx as [-> | Hx]; [done |].
    apply elem_of_cons in Hy as [-> | Hy]; [done |].
    apply IH; [lia | done..].
Qed.

(** What a header on which nothing raises looks like. *)
Lemma raises_false hdr :
  V2.raises hdr = false →
  (count_label "Date" hdr ≤ 1)%nat ∧
  (count_label "Participants" hdr ≤ 1)%nat ∧
  (count_label "Satisfaction" hdr ≤ 1)%nat ∧
  (count_label "Centre" hdr ≤ 1)%nat ∧
  (count_label "Location Name" hdr ≤ 1)%nat ∧
  ("Location Name" ∉ hdr → (count_label "Location" hdr ≤ 1)%nat) ∧
  ("Location Name" ∉ hdr → "Location" ∉ hdr →
     (count_label "Center" hdr ≤ 1)%nat).
Proof.
  unfold V2.raises. intros Hr.
  apply orb_false_iff in Hr as [Hr Hcentre].
  apply orb_false_iff in Hr as [Hr _].
  apply orb_false_iff in Hr as [Hr Hsat].
  apply orb_false_iff in Hr as [Hr Hpart].
  apply orb_false_iff in Hr as [Hr Hdate].
  apply orb_false_iff in Hr as [Hsrc _].
  unfold V2.series_raises in *.
  apply Nat.ltb_ge in Hcentre, Hsat, Hpart, Hdate.
  assert (∀ src, V2.copy_raises "Centre" src hdr = false →
                 (count_label src hdr ≤ 1)%nat) as Hcopy.
  { intros src Hsrc'. unfold V2.copy_raises in Hsrc'.
    apply andb_false_iff in Hsrc' as [Hlt | Heq].
    - by apply Nat.ltb_ge in Hlt.
    - apply negb_false_iff, Nat.eqb_eq in Heq. lia. }
  repeat split; try done.
  - case_bool_decide as H1; [by apply Hcopy |].
    rewrite count_label_absent by done. lia.
  - intros H1. rewrite bool_decide_eq_false_2 in Hsrc by done.
    case_bool_decide as H2; [by apply Hcopy |].
    rewrite count_label_absent by done. lia.
  - intros H1 H2. rewrite !bool_decide_eq_false_2 in Hsrc by done.
    case_bool_decide as H3; [by apply Hcopy |].
    rewrite count_label_absent by done. lia.
Qed.

Lemma raises_NoDup hdr : NoDup hdr → V2.raises hdr = false.
Proof.
  intros Hnd.
  assert (∀ c, V2.series_raises c hdr = false) as Hs.
  { intros c. unfold V2.series_raises. apply Nat.ltb_ge.
    by apply count_label_NoDup. }
  assert (∀ key src, V2.copy_raises key src hdr = false) as Hc.
  { intros key src. unfold V2.copy_raises.
    change (V2.series_raises src hdr && negb
              (count_label src hdr =? count_label key hdr)%nat = false).
    by rewrite Hs. }
  unfold V2.raises. rewrite !Hs, !Hc. by repeat case_bool_decide.
Qed.

Section Stripped.
Context `{Pandas}.

(** Reading a stripped header. *)
Lemma get_strip_row t r c :
  (count_label (strip c) (map strip (columns t)) ≤ 1)%nat → c ∈ columns t →
  get (strip c) (strip_row t r) = get c r.
Proof.
  intros Hone Hc. unfold strip_row, get at 1.
  erewrite elem_of_list_to_map_1'; [done | |].
  - intros y Hy. apply list_elem_of_fmap in Hy as (c' & Heq & Hc').
    injection Heq as Hs ->. f_equal.
    by apply (count_label_unique strip (strip c) (columns t)).
  - apply (list_elem_of_fmap_2 (λ c, (strip c, get c r))), Hc.
Qed.

Lemma has_column_strip_columns k t :
  has_column k (strip_columns t) = bool_decide (k ∈ map strip (columns t)).
Proof. done. Qed.

Lemma header_ok_count t c :
  header_ok t → (count_label c (map strip (columns t)) ≤ 1)%nat.
Proof. apply count_label_NoDup. Qed.

Lemma header_ok_raises t :
  header_ok t → V2.raises (map strip (columns t)) = false.
Proof. apply raises_NoDup. Qed.

End Stripped.

(** ** The steps of the loader, one column at a time *)

Lemma count_label_app c l1 l2 :
  count_label c (l1 ++ l2) = (count_label c l1 + count_label c l2)%nat.
Proof. unfold count_label. by rewrite filter_app, length_app. Qed.

Lemma count_label_set_column c k f df :
  k ≠ c →
  count_label k (columns (set_column c f df)) = count_label k (columns df).
Proof.
  intros Hne. unfold set_column; cbn [columns].
  destruct (has_column c df); [done |].
  rewrite count_label_app, count_label_cons, decide_False by done.
  unfold count_label; simpl. lia.
Qed.

Lemma writes_set_column c f df : writes c f df (set_column c f df).
Proof.
  exists (λ r, <[c := f r]> r). split; [done |].
  split; [| split; [| split; [| split]]].
  - intros r. apply get_insert_eq.
  - intros r k Hk. by apply get_insert_ne.
  - intros k Hk. by apply has_column_set_column_ne.
  - intros _. apply has_column_set_column.
  - intros k Hk. by apply count_label_set_column.
Qed.

Lemma writes_nothing c df : writes c (get c) df df.
Proof. exists id. by rewrite map_id. Qed.

Lemma writes_copy_column key src df :
  writes key (copied key src df) df (V2.copy_column key src df).
Proof.
  unfold V2.copy_column, copied.
  destruct (V2.spreads key src df); apply writes_set_column.
Qed.

(** Copying reads the same cell before and after another column is
    written. *)
Lemma copied_map c df df' (g : gmap string cell → gmap string cell) key src r :
  rows df' = map g (rows df) →
  (∀ r k, k ≠ c → get k (g r) = get k r) →
  (∀ k, k ≠ c → count_label k (columns df') = count_label k (columns df)) →
  key ≠ c → src ≠ c →
  copied key src df' (g r) = copied key src df r.
Proof.
  intros R G N Hkey Hsrc. unfold copied, V2.spreads.
  rewrite !N by done. rewrite R, length_map.
  destruct (_ && _ && _); [| by apply G].
  destruct (rows df) as [| r0 rs]; cbn [map hd_error from_option]; [done |].
  by apply G.
Qed.


(** Into a column that comes once, a series goes cell by cell. *)
Lemma copied_once key src df r :
  (count_label key (columns df) ≤ 1)%nat → copied key src df r = get src r.
Proof.
  intros Hone. unfold copied, V2.spreads.
  assert ((1 <? count_label key (columns df))%nat = false) as ->
    by (by apply Nat.ltb_ge).
  by rewrite andb_false_r.
Qed.

Section Steps.
Context `{Pandas}.

Lemma resolve_centre_writes df :
  writes "Centre" (centre_value df) df (V2.resolve_centre df).
Proof.
  unfold V2.resolve_centre, centre_value.
  destruct (has_column "Location Name" df); [apply writes_copy_column |].
  destruct (has_column "Location" df); [apply writes_copy_column |].
  destruct (has_column "Center" df); [apply writes_copy_column |].
  apply writes_set_column.
Qed.

Lemma resolve_program_writes df :
  writes "Program" (program_value df) df (V2.resolve_program df).
Proof.
  unfold V2.resolve_program, program_value.
  destruct (has_column "Program Name" df); [apply writes_copy_column |].
  destruct (has_column "Course Name" df); [apply writes_copy_column |].
  destruct (has_column "Program" df); simpl;
    [apply writes_nothing | apply writes_set_column].
Qed.

Lemma resolve_date_writes df :
  writes "Date" (date_value df) df (V2.resolve_date df).
Proof.
  unfold V2.resolve_date, date_value.
  destruct (has_column "Date" df);
    [apply (writes_set_column "Date"
              (λ r, to_datetime (column "Date" df) (get "Date" r)))
    | apply writes_nothing].
Qed.

Lemma resolve_participants_writes df :
  writes "Participants" (participants_value df) df (V2.resolve_participants df).
Proof.
  unfold V2.resolve_participants, participants_value.
  destruct (has_column "Participants" df); simpl; apply writes_set_column.
Qed.

Lemma resolve_satisfaction_writes df :
  writes "Satisfaction" (satisfaction_value df) df (V2.resolve_satisfaction df).
Proof.
  unfold V2.resolve_satisfaction, satisfaction_value.
  destruct (has_column "Satisfaction" df); simpl; apply writes_set_column.
Qed.

Lemma resolve_category_writes df :
  writes "Category" (category_value df) df (V2.resolve_category df).
Proof.
  unfold V2.resolve_category, category_value.
  destruct (has_column "Target Audience" df); [apply writes_copy_column |].
  destruct (has_column "Category" df); simpl;
    [apply writes_nothing | apply writes_set_column].
Qed.

Lemma resolve_participants_has_column df :
  has_column "Participants" (V2.resolve_participants df) = true.
Proof.
  unfold V2.resolve_participants.
  destruct (has_column "Participants" df); simpl; apply has_column_set_column.
Qed.

End Steps.

(** ** The loader as a whole *)

Lemma all_na_false cols c (r : gmap string cell) :
  c ∈ cols → isna (get c r) = false → all_na cols r = false.
Proof.
  intros Hc Hr. unfold all_na. apply not_true_iff_false. intros Hall.
  rewrite forallb_forall in Hall.
  specialize (Hall c (proj1 (list_elem_of_In _ _) Hc)). congruence.
Qed.

Lemma rows_dropna_all df c :
  c ∈ columns df → (∀ r, r ∈ rows df → isna (get c r) = false) →
  rows (dropna_all df) = rows df.
Proof.
  intros Hc Hr. unfold dropna_all; simpl.
  induction (rows df) as [| r rs IH]; [done |].
  rewrite filter_cons_True.
  - f_equal. apply IH. intros r' Hr'. apply Hr. by right.
  - eapply all_na_false; [done |]. apply Hr. by left.
Qed.

Section Whole.
Context `{Pandas}.

Lemma participants_value_number df r : ∃ p, participants_value df r = Num p.
Proof. unfold participants_value, fillna. case_match; eauto. Qed.

Lemma satisfaction_value_number df r : ∃ s, satisfaction_value df r = Num s.
Proof. unfold satisfaction_value, fillna. case_match; eauto. Qed.

(** Every row of the table comes out, rewritten in place; the resolved
    columns hold the values above, every other column but Date is as it
    was. *)
Lemma normalize_rows t :
  let S := strip_columns t in
  ∃ g : gmap string cell → gmap string cell,
    rows (V2.normalize t) = map g (rows S) ∧
    ∀ r,
      get "Centre" (g r) = centre_value S r ∧
      get "Program" (g r) = program_value S r ∧
      get "Participants" (g r) = participants_value S r ∧
      get "Satisfaction" (g r) = satisfaction_value S r ∧
      get "Category" (g r) = category_value S r ∧
      (∀ k, k ∉ ["Centre"; "Program"; "Date"; "Participants";
                  "Satisfaction"; "Category"] → get k (g r) = get k r).
Proof.
  intros S. unfold V2.normalize. fold S.
  destruct (resolve_centre_writes S) as (g1 & R1 & V1 & G1 & C1 & _ & N1).
  set (d1 := V2.resolve_centre S) in *.
  destruct (resolve_program_writes d1) as (g2 & R2 & V2 & G2 & C2 & _ & N2).
  set (d2 := V2.resolve_program d1) in *.
  destruct (resolve_date_writes d2) as (g3 & R3 & V3 & G3 & C3 & _ & N3).
  set (d3 := V2.resolve_date d2) in *.
  destruct (resolve_participants_writes d3) as (g4 & R4 & V4 & G4 & C4 & _ & N4).
  pose proof (resolve_participants_has_column d3) as P4.
  set (d4 := V2.resolve_participants d3) in *.
  destruct (resolve_satisfaction_writes d4) as (g5 & R5 & V5 & G5 & C5 & _ & N5).
  set (d5 := V2.resolve_satisfaction d4) in *.
  destruct (resolve_category_writes d5) as (g6 & R6 & V6 & G6 & C6 & _).
  set (d6 := V2.resolve_category d5) in *.
  exists (g6 ∘ g5 ∘ g4 ∘ g3 ∘ g2 ∘ g1).
  assert (rows d6 = map (g6 ∘ g5 ∘ g4 ∘ g3 ∘ g2 ∘ g1) (rows S)) as R.
  { rewrite R6, R5, R4, R3, R2, R1. by rewrite !map_map. }
  assert (∀ r, get "Participants" ((g6 ∘ g5 ∘ g4 ∘ g3 ∘ g2 ∘ g1) r)
               = participants_value S r) as HP.
  { intros r. simpl. rewrite G6, G5, V4 by done.
    unfold participants_value.
    rewrite C3, C2, C1 by done. rewrite G3, G2, G1 by done. done. }
  split.
  - transitivity (rows d6); [| exact R].
    apply (rows_dropna_all d6 "Participants").
    + apply (proj1 (has_column_true _ _)). rewrite C6, C5 by done. exact P4.
    + intros r' Hr'. rewrite R in Hr'.
      apply list_elem_of_fmap in Hr' as (r & -> & _).
      rewrite HP. destruct (participants_value_number S r) as [p ->]. done.
  - intros r. split; [| split; [| split; [| split; [| split]]]].
    + simpl. rewrite G6, G5, G4, G3, G2, V1 by done. done.
    + simpl. rewrite G6, G5, G4, G3, V2 by done.
      unfold program_value. rewrite !C1 by done.
      rewrite !(copied_map "Centre" S d1 g1) by done.
      rewrite !G1 by done. done.
    + apply HP.
    + simpl. rewrite G6, V5 by done. unfold satisfaction_value.
      rewrite C4, C3, C2, C1 by done. rewrite G4, G3, G2, G1 by done. done.
    + simpl. rewrite V6. unfold category_value.
      rewrite !C5, !C4, !C3, !C2, !C1 by done.
      rewrite (copied_map "Satisfaction" d4 d5 g5) by done.
      rewrite (copied_map "Participants" d3 d4 g4) by done.
      rewrite (copied_map "Date" d2 d3 g3) by done.
      rewrite (copied_map "Program" d1 d2 g2) by done.
      rewrite (copied_map "Centre" S d1 g1) by done.
      rewrite !G5, !G4, !G3, !G2, !G1 by done. done.
    + intros k Hk. simpl.
      repeat (apply not_elem_of_cons in Hk as [? Hk]).
      rewrite G6, G5, G4, G3, G2, G1 by done. done.
Qed.

End Whole.

(** The loader, row by row, from the table as it was read. *)

Section FromTheTable.
Context `{Pandas}.

Lemma normalize_from_table t :
  let S := strip_columns t in
  ∃ g : gmap string cell → gmap string cell,
    rows (V2.normalize t) = map g (rows t) ∧
    ∀ r,
      get "Centre" (g r) = centre_value S (strip_row t r) ∧
      get "Program" (g r) = program_value S (strip_row t r) ∧
      get "Participants" (g r) = participants_value S (strip_row t r) ∧
      get "Satisfaction" (g r) = satisfaction_value S (strip_row t r) ∧
      get "Category" (g r) = category_value S (strip_row t r).
Proof.
  intros S. destruct (normalize_rows t) as (g & R & V).
  exists (g ∘ strip_row t). split.
  - rewrite R. unfold S, strip_columns; simpl. by rewrite map_map.
  - intros r. simpl. destruct (V (strip_row t r)) as (? & ? & ? & ? & ? & _).
    auto.
Qed.

Lemma normalize_length t : length (rows (V2.normalize t)) = length (rows t).
Proof.
  destruct (normalize_from_table t) as (g & R & _).
  rewrite R. apply length_map.
Qed.

Lemma has_column_stripped t c :
  c ∈ columns t → has_column (strip c) (strip_columns t) = true.
Proof.
  intros Hc. rewrite has_column_strip_columns. apply bool_decide_eq_true.
  by apply (list_elem_of_fmap_2 strip).
Qed.

Lemma has_column_unstripped t k :
  k ∉ map strip (columns t) → has_column k (strip_columns t) = false.
Proof. intros Hk. rewrite has_column_strip_columns. by apply bool_decide_eq_false. Qed.

(** The two ways the loader ends on a workbook that was read. *)
Lemma load_raises t :
  V2.raises (map strip (columns t)) = true →
  V2.load_all_centers_data (Parsed t)
  = (empty_frame, [st_error_loading (str_exception (map strip (columns t)))]).
Proof. intros Hr. unfold V2.load_all_centers_data. by rewrite Hr. Qed.

Lemma load_completes t :
  V2.raises (map strip (columns t)) = false →
  V2.load_all_centers_data (Parsed t)
  = (V2.normalize t,
     [st_success (length (rows t))
                 (length (unique (column "Centre" (V2.normalize t))))]).
Proof.
  intros Hr. unfold V2.load_all_centers_data. rewrite Hr. cbn zeta.
  by rewrite normalize_length.
Qed.

Lemma load_frame t :
  (V2.load_all_centers_data (Parsed t)).1
  = if V2.raises (map strip (columns t)) then empty_frame else V2.normalize t.
Proof.
  destruct (V2.raises (map strip (columns t))) eqn:Hr.
  - by rewrite load_raises.
  - by rewrite load_completes.
Qed.

(** A column of the frame the loader returns. *)
Lemma column_loaded t k (v : gmap string cell → cell) :
  (V2.raises (map strip (columns t)) = false →
   column k (V2.normalize t) = map v (rows t)) →
  column k (V2.load_all_centers_data (Parsed t)).1
  = if V2.raises (map strip (columns t)) then [] else map v (rows t).
Proof.
  intros Hcol. rewrite load_frame.
  destruct (V2.raises (map strip (columns t))); [done | by apply Hcol].
Qed.

Lemma column_normalize t k (v : gmap string cell → cell) :
  (∀ g r, (get "Centre" (g r) = centre_value (strip_columns t) (strip_row t r) ∧
           get "Program" (g r) = program_value (strip_columns t) (strip_row t r) ∧
           get "Participants" (g r)
           = participants_value (strip_columns t) (strip_row t r) ∧
           get "Satisfaction" (g r)
           = satisfaction_value (strip_columns t) (strip_row t r) ∧
           get "Category" (g r) = category_value (strip_columns t) (strip_row t r)) →
          get k (g r) = v r) →
  column k (V2.normalize t) = map v (rows t).
Proof.
  intros Hv. destruct (normalize_from_table t) as (g & R & V).
  unfold column. rewrite R, map_map. apply map_ext. intros r.
  apply Hv, V.
Qed.

End FromTheTable.

(** * The claims about the loader *)

Ltac not_written :=
  repeat (apply not_elem_of_cons; split; [done |]); apply not_elem_of_nil.

Section LoaderClaims.
Context `{Pandas}.

(** C1 (as amended).  In a table with a Satisfaction column that the loader
    loads, a row whose rating is missing or is not a number gets the rating
    4, and a row whose rating is a number keeps that number, inside [1,5] or
    not.  The loader loads the table unless a statement of it raises, which
    it does on a header that repeats a label it resolves (Satisfaction
    among them): there are no records then. *)
Theorem satisfaction_resolution t c :
  c ∈ columns t → strip c = "Satisfaction" →
  column "Satisfaction" (V2.load_all_centers_data (Parsed t)).1
  = if V2.raises (map strip (columns t)) then []
    else map (λ r, match to_numeric (get c r) with
                   | Some v => Num v
                   | None => Num (Qc_of_Z 4)
                   end) (rows t).
Proof.
  intros Hc Hs. apply column_loaded. intros Hr.
  apply raises_false in Hr as (_ & _ & Hone & _).
  apply column_normalize. intros g r (_ & _ & _ & -> & _).
  unfold satisfaction_value. rewrite <- Hs, has_column_stripped by done.
  rewrite get_strip_row; [| by rewrite Hs | done].
  unfold fillna. by destruct (to_numeric _).
Qed.


(** C5.  The centre is resolved in the order Location Name, Location,
    Center: a table with a Location Name column gives every record the value
    its row has there, whatever other location columns the table has;
    Location is used only without Location Name, Center only without both,
    and the constant only without all three.  (A table on which the loader
    raises gives no records.) *)
Theorem centre_priority t :
  let hdr := map strip (columns t) in
  let centre := column "Centre" (V2.load_all_centers_data (Parsed t)).1 in
  (∀ c, c ∈ columns t → strip c = "Location Name" →
     centre = if V2.raises hdr then [] else map (get c) (rows t)) ∧
  (∀ c, "Location Name" ∉ hdr → c ∈ columns t → strip c = "Location" →
     centre = if V2.raises hdr then [] else map (get c) (rows t)) ∧
  (∀ c, "Location Name" ∉ hdr → "Location" ∉ hdr →
     c ∈ columns t → strip c = "Center" →
     centre = if V2.raises hdr then [] else map (get c) (rows t)) ∧
  ("Location Name" ∉ hdr → "Location" ∉ hdr → "Center" ∉ hdr →
     centre = if V2.raises hdr then [] else map (λ _, Str "ICCO") (rows t)).
Proof.
  intros hdr centre. unfold centre, hdr. repeat split.
  - intros c Hc Hs. apply column_loaded. intros Hr.
    apply raises_false in Hr as (_ & _ & _ & Hcentre & Hone & _).
    apply column_normalize. intros g r (-> & _). unfold centre_value.
    rewrite <- Hs, has_column_stripped by done.
    rewrite copied_once by done.
    apply get_strip_row; [by rewrite Hs | done].
  - intros c H1 Hc Hs. apply column_loaded. intros Hr.
    apply raises_false in Hr as (_ & _ & _ & Hcentre & _ & Hone & _).
    apply column_normalize. intros g r (-> & _). unfold centre_value.
    rewrite (has_column_unstripped t "Location Name") by done.
    rewrite <- Hs, has_column_stripped by done.
    rewrite copied_once by done.
    apply get_strip_row; [rewrite Hs; by apply Hone | done].
  - intros c H1 H2 Hc Hs. apply column_loaded. intros Hr.
    apply raises_false in Hr as (_ & _ & _ & Hcentre & _ & _ & Hone).
    apply column_normalize. intros g r (-> & _). unfold centre_value.
    rewrite (has_column_unstripped t "Location Name") by done.
    rewrite (has_column_unstripped t "Location") by done.
    rewrite <- Hs, has_column_stripped by done.
    rewrite copied_once by done.
    apply get_strip_row; [rewrite Hs; by apply Hone | done].
  - intros H1 H2 H3. apply column_loaded. intros _.
    apply column_normalize. intros g r (-> & _). unfold centre_value.
    rewrite (has_column_unstripped t "Location Name") by done.
    rewrite (has_column_unstripped t "Location") by done.
    by rewrite (has_column_unstripped t "Center") by done.
Qed.


End LoaderClaims.

(** ** The loader on the worked tables *)

Ltac by_evaluation := apply (bool_decide_unpack _); vm_compute; exact I.

Lemma satisfaction_resolution_witness :
  column "Satisfaction"
    (@V2.load_all_centers_data numerals (Parsed ratings_table)).1
  = [int_cell 7; int_cell 4; int_cell 4].
Proof.
  rewrite (@satisfaction_resolution numerals ratings_table " Satisfaction ").
  - reflexivity.
  - by_evaluation.
  - reflexivity.
Defined.

(** C1, as stated, fails: a rating of 7 stays 7. *)
Lemma rating_outside_scale_is_kept :
  ¬ (∀ (P : Pandas) t c, header_ok t → c ∈ columns t →
       strip c = "Satisfaction" →
       ∀ i r, rows t !! i = Some r →
         (to_numeric (get c r) = None ∨
          ∃ v, to_numeric (get c r) = Some v ∧
               (v < Qc_of_Z 1 ∨ Qc_of_Z 5 < v)%Qc) →
         column "Satisfaction" (V2.load_all_centers_data (Parsed t)).1 !! i
         = Some (int_cell 4)).
Proof.
  intros Hclaim.
  specialize (Hclaim numerals ratings_table " Satisfaction ").
  specialize (Hclaim ltac:(by_evaluation) ltac:(by_evaluation) eq_refl).
  specialize (Hclaim 0%nat _ eq_refl).
  assert (column "Satisfaction"
            (@V2.load_all_centers_data numerals (Parsed ratings_table)).1
          !! 0%nat = Some (int_cell 7)) as Hrun by (vm_compute; reflexivity).
  rewrite Hrun in Hclaim.
  assert (Some (int_cell 7) = Some (int_cell 4)) as Habs.
  { apply Hclaim. right. exists (Qc_of_Z 7). split; [reflexivity |].
    right. reflexivity. }
  discriminate Habs.
Qed.

Lemma first_elem {A} (d : A) (l : list A) :
  (0 < length l)%nat → default d (head l) ∈ l.
Proof. destruct l; simpl; [lia | left]. Qed.

(** C2.  No row is ever dropped: when [dropna] runs, the Participants
    column has been filled in every row, so the frame the loader returns
    has as many rows as the table.  On the table with a row without a
    single value between two rows that have values, the row comes out with
    the defaults in it, where the claim has it dropped. *)
Theorem blank_row_is_kept :
  (∀ (P : Pandas) t, length (rows (V2.normalize t)) = length (rows t)) ∧
  (∀ (P : Pandas) t, V2.raises (map strip (columns t)) = false →
     length (rows (V2.load_all_centers_data (Parsed t)).1) = length (rows t)) ∧
  map (λ r, map (λ c, get c r) ["Centre"; "Program"; "Participants";
                                 "Satisfaction"; "Category"])
      (rows (@V2.load_all_centers_data numerals (Parsed blank_table)).1)
  = [[Str "A"; Str "Tafsir"; int_cell 1; int_cell 4; Str "General"];
     [NaN; NaN; int_cell 1; int_cell 4; Str "General"];
     [Str "B"; Str "Halaqa"; int_cell 1; int_cell 4; Str "General"]].
Proof.
  split; [| split].
  - intros P t. apply normalize_length.
  - intros P t Hr. rewrite load_completes by done. apply normalize_length.
  - vm_compute. reflexivity.
Qed.



Lemma centre_priority_witness :
  column "Centre"
    (@V2.load_all_centers_data numerals (Parsed two_locations_table)).1
  = [Str "X"].
Proof.
  destruct (@centre_priority numerals two_locations_table) as (Hname & _).
  rewrite (Hname "Location Name ").
  - reflexivity.
  - by_evaluation.
  - reflexivity.
Defined.



(** * The claims about the tables *)

Section Canonical.
Context `{Pandas}.

(** What the loader returns is a sequence of canonical records, and so is
    the part of it for one centre. *)
Lemma normalize_canonical t : canonical (V2.normalize t).
Proof.
  intros r Hr. destruct (normalize_rows t) as (g & R & V).
  rewrite R in Hr. apply list_elem_of_fmap in Hr as (r0 & -> & _).
  destruct (V r0) as (_ & _ & VN & VS & _).
  split; [rewrite VN; apply participants_value_number
         | rewrite VS; apply satisfaction_value_number].
Qed.

Lemma df_centre_canonical df c : canonical df → canonical (V2.df_centre df c).
Proof.
  intros Hdf r Hr. apply Hdf. unfold V2.df_centre in Hr; simpl in Hr.
  by apply list_elem_of_filter in Hr as [_ Hr].
Qed.

End Canonical.

Global Instance by_participants_desc_trans : Transitive V2.by_participants_desc.
Proof.
  intros a b c Hab Hbc. unfold V2.by_participants_desc in *.
  by eapply Qcle_trans.
Qed.

Global Instance by_participants_desc_total : Total V2.by_participants_desc.
Proof.
  intros a b. unfold V2.by_participants_desc.
  destruct (Qc_le_total (V2.g_participants a) (V2.g_participants b)); auto.
Qed.

Lemma StronglySorted_take {A} (R : relation A) n l :
  StronglySorted R l → StronglySorted R (take n l).
Proof.
  intros Hl. rewrite <- (take_drop n l) in Hl.
  by apply StronglySorted_app_1_l in Hl.
Qed.

Lemma sort_by_participants_sorted l :
  StronglySorted V2.by_participants_desc (V2.sort_by_participants l).
Proof. apply StronglySorted_merge_sort; apply _. Qed.

Lemma elem_of_sort_by_participants g l :
  g ∈ V2.sort_by_participants l ↔ g ∈ l.
Proof. unfold V2.sort_by_participants. by rewrite merge_sort_Permutation. Qed.

Lemma length_sort_by_participants l :
  length (V2.sort_by_participants l) = length l.
Proof. unfold V2.sort_by_participants. by rewrite merge_sort_Permutation. Qed.

Lemma length_group_keys key df :
  length (V2.group_keys key df) = nunique (column key df).
Proof. unfold V2.group_keys, nunique. by rewrite merge_sort_Permutation. Qed.

Lemma length_value_counts l : length (V2.value_counts l) = nunique l.
Proof.
  unfold V2.value_counts, nunique.
  by rewrite merge_sort_Permutation, length_map.
Qed.

Lemma elem_of_group_keys key df k :
  k ∈ V2.group_keys key df ↔ k ≠ NaN ∧ ∃ r, r ∈ rows df ∧ get key r = k.
Proof.
  unfold V2.group_keys. rewrite merge_sort_Permutation, elem_of_remove_dups.
  rewrite list_elem_of_filter. unfold column.
  rewrite list_elem_of_fmap. split.
  - intros [Hna (r & -> & Hr)]. split; [| eauto].
    intros Hk. by rewrite Hk in Hna.
  - intros [Hna (r & Hr & <-)]. split; [| eauto].
    by destruct (get key r).
Qed.

Lemma NoDup_group_keys key df : NoDup (V2.group_keys key df).
Proof.
  unfold V2.group_keys. rewrite merge_sort_Permutation.
  apply NoDup_remove_dups.
Qed.

Lemma omap_map {A B C} (f : A → B) (g : B → option C) (l : list A) :
  omap g (map f l) = omap (λ x, g (f x)) l.
Proof.
  induction l as [| x l IH]; [done |].
  cbn [map omap list_omap]. rewrite <- IH. done.
Qed.

Lemma empty_no_rows df : rows df = [] → empty df = true.
Proof. intros Hrows. unfold empty. rewrite Hrows. by destruct (columns df). Qed.

Section Rankings.
Context `{Pandas}.

Lemma length_groupby_agg key df :
  length (V2.groupby_agg key df) = nunique (column key df).
Proof. unfold V2.groupby_agg. rewrite length_map. apply length_group_keys. Qed.

Lemma groupby_agg_keys key df :
  map V2.g_key (V2.groupby_agg key df) = V2.group_keys key df.
Proof. unfold V2.groupby_agg. rewrite map_map. apply map_id. Qed.

(** What a line of a grouped table of canonical records holds. *)
Lemma groupby_agg_line key df g :
  canonical df → g ∈ V2.groupby_agg key df → line_of key df g.
Proof.
  unfold V2.groupby_agg. intros Hcan Hg.
  apply list_elem_of_fmap in Hg as (k & -> & Hk).
  apply elem_of_group_keys in Hk as (Hna & r & Hr & Hkey).
  assert (r ∈ filter (λ r, get key r = k) (rows df)) as Hin
    by (by apply list_elem_of_filter).
  unfold line_of. cbn [V2.g_key V2.g_participants V2.g_satisfaction].
  split; [done |]. split; [| split].
  - intros Hnil. rewrite Hnil in Hin. by apply elem_of_nil in Hin.
  - unfold V2.agg_sum, V2.members. by rewrite map_map.
  - unfold V2.agg_mean, V2.members. rewrite omap_map, map_map.
    destruct (Hcan r Hr) as (_ & s & Hs).
    assert (s ∈ omap (λ x, V2.number (get "Satisfaction" x))
                  (filter (λ r, get key r = k) (rows df))) as Hnum.
    { apply list_elem_of_omap. exists r. split; [done |]. by rewrite Hs. }
    destruct (omap _ _); [by apply elem_of_nil in Hnum | done].
Qed.

(** Every key of the frame has its line in a sorted table that is not cut,
    or is cut after more lines than there are keys. *)
Lemma take_sort_keys n key df k :
  (nunique (column key df) ≤ n)%nat →
  k ≠ NaN → k ∈ column key df →
  k ∈ map V2.g_key
        (take n (V2.sort_by_participants (V2.groupby_agg key df))).
Proof.
  intros Hn Hna Hk.
  rewrite take_ge
    by (by rewrite length_sort_by_participants, length_groupby_agg).
  unfold V2.sort_by_participants. rewrite merge_sort_Permutation.
  rewrite groupby_agg_keys. apply elem_of_group_keys. split; [done |].
  unfold column in Hk. apply list_elem_of_fmap in Hk as (r & -> & Hr). eauto.
Qed.

(** C9 (as amended).  For every sequence of canonical records, the
    programme ranking of the analytics tab, the table behind the
    participants chart and the audience ranking list their groups by
    participants sum, largest first.  A line holds the participants sum
    and the satisfaction mean of the records of its group, which has a
    record, and nothing else: no count.  Every audience has its line in
    the audience ranking, and every programme in the programme tables when
    there are at most ten. *)
Theorem rankings_sorted df :
  canonical df →
  (StronglySorted V2.by_participants_desc (V2.program_perf df) ∧
   (∀ g, g ∈ V2.program_perf df → line_of "Program" df g) ∧
   ((nunique (column "Program" df) ≤ 10)%nat →
    ∀ k, k ≠ NaN → k ∈ column "Program" df →
         k ∈ map V2.g_key (V2.program_perf df))) ∧
  (StronglySorted V2.by_participants_desc (V2.create_program_participants df) ∧
   (∀ g, g ∈ V2.create_program_participants df → line_of "Program" df g) ∧
   (empty df = false → (nunique (column "Program" df) ≤ 10)%nat →
    ∀ k, k ≠ NaN → k ∈ column "Program" df →
         k ∈ map V2.g_key (V2.create_program_participants df))) ∧
  (StronglySorted V2.by_participants_desc (V2.audience_perf df) ∧
   (∀ g, g ∈ V2.audience_perf df → line_of "Category" df g) ∧
   (∀ k, k ≠ NaN → k ∈ column "Category" df →
         k ∈ map V2.g_key (V2.audience_perf df))).
Proof.
  intros Hcan.
  assert (StronglySorted V2.by_participants_desc
            (V2.head 10 (V2.sort_by_participants (V2.groupby_agg "Program" df))) ∧
          (∀ g, g ∈ V2.head 10 (V2.sort_by_participants
                                  (V2.groupby_agg "Program" df)) →
                line_of "Program" df g) ∧
          ((nunique (column "Program" df) ≤ 10)%nat →
           ∀ k, k ≠ NaN → k ∈ column "Program" df →
                k ∈ map V2.g_key
                      (V2.head 10 (V2.sort_by_participants
                                     (V2.groupby_agg "Program" df))))) as Htop.
  { split; [| split].
    - apply StronglySorted_take, sort_by_participants_sorted.
    - intros g Hg. apply groupby_agg_line; [done |].
      apply elem_of_sort_by_participants. by apply (subseteq_take 10).
    - intros Hn k Hna Hk. by apply take_sort_keys. }
  split; [exact Htop |]. split.
  - unfold V2.create_program_participants. destruct (empty df).
    + split; [constructor |].
      split; [intros g Hg; by apply elem_of_nil in Hg | done].
    + destruct Htop as (Hs & Hl & Hk). split; [done |]. split; [done |].
      intros _. exact Hk.
  - split; [apply sort_by_participants_sorted |]. split.
    + intros g Hg. apply groupby_agg_line; [done |].
      by apply elem_of_sort_by_participants.
    + intros k Hna Hk. unfold V2.audience_perf.
      rewrite <- (take_ge (V2.sort_by_participants _)
                          (nunique (column "Category" df)))
        by (by rewrite length_sort_by_participants, length_groupby_agg).
      by apply take_sort_keys.
Qed.

(** C10 (as amended).  The programme distribution, the table behind the
    participants chart and the programme ranking stop after ten groups: each
    is the first ten lines of its sorted table, so it has ten lines when
    there are more than ten programmes and one line per programme
    otherwise.  The audience ranking is not cut: it has one line per
    audience, however many there are. *)
Theorem top_ten df :
  (V2.program_perf df
     `prefix_of` V2.sort_by_participants (V2.groupby_agg "Program" df) ∧
   length (V2.program_perf df) = Nat.min 10 (nunique (column "Program" df))) ∧
  (V2.create_program_participants df
     `prefix_of` V2.sort_by_participants (V2.groupby_agg "Program" df) ∧
   length (V2.create_program_participants df)
   = if empty df then 0%nat else Nat.min 10 (nunique (column "Program" df))) ∧
  (V2.create_program_distribution df
     `prefix_of` V2.value_counts (column "Program" df) ∧
   length (V2.create_program_distribution df)
   = if empty df then 0%nat else Nat.min 10 (nunique (column "Program" df))) ∧
  length (V2.audience_perf df) = nunique (column "Category" df).
Proof.
  split; [| split; [| split]].
  - unfold V2.program_perf, V2.head. split; [apply prefix_take |].
    by rewrite length_take, length_sort_by_participants, length_groupby_agg.
  - unfold V2.create_program_participants, V2.head. destruct (empty df).
    + split; [apply prefix_nil | done].
    + split; [apply prefix_take |].
      by rewrite length_take, length_sort_by_participants, length_groupby_agg.
  - unfold V2.create_program_distribution, V2.head. destruct (empty df).
    + split; [apply prefix_nil | done].
    + split; [apply prefix_take |].
      by rewrite length_take, length_value_counts.
  - unfold V2.audience_perf.
    by rewrite length_sort_by_participants, length_groupby_agg.
Qed.

Lemma series_mean_number l s : Num s ∈ l → ∃ m, V2.series_mean l = Num m.
Proof.
  intros Hs. unfold V2.series_mean.
  assert (s ∈ omap V2.number l) as Hin.
  { apply list_elem_of_omap. exists (Num s). by split. }
  destruct (omap V2.number l); [by apply elem_of_nil in Hin | eauto].
Qed.

Lemma agg_mean_number l s : Num s ∈ l → ∃ m, V2.agg_mean l = Num m.
Proof.
  intros Hs. unfold V2.agg_mean.
  assert (s ∈ omap V2.number l) as Hin.
  { apply list_elem_of_omap. exists (Num s). by split. }
  destruct (omap V2.number l); [by apply elem_of_nil in Hin | eauto].
Qed.

Lemma groupby_agg_nil key df : rows df = [] → V2.groupby_agg key df = [].
Proof.
  intros Hrows. unfold V2.groupby_agg, V2.group_keys, column.
  by rewrite Hrows.
Qed.

(** C4 (as amended).  On the empty sequence every grouped table is empty
    and [calculate_metrics] reports the mean satisfaction as 0, the value
    its guard returns, not as an absent value and not as NaN.  In a grouped
    table of canonical records no mean is NaN, since every group has a
    member. *)
Theorem empty_input_and_means df :
  (rows df = [] →
     (∀ key, V2.groupby_agg key df = []) ∧
     V2.program_perf df = [] ∧
     V2.audience_perf df = [] ∧
     V2.create_program_participants df = [] ∧
     V2.create_program_distribution df = [] ∧
     V2.calculate_metrics df = V2.mkMetrics 0 0 (Num (Qc_of_Z 0)) 0 0) ∧
  (canonical df →
     ∀ key g, g ∈ V2.groupby_agg key df → ∃ m, V2.g_satisfaction g = Num m).
Proof.
  split.
  - intros Hrows.
    pose proof (empty_no_rows df Hrows) as Hempty.
    split; [intros key; by apply groupby_agg_nil |].
    unfold V2.program_perf, V2.audience_perf, V2.create_program_participants,
      V2.create_program_distribution, V2.calculate_metrics.
    rewrite Hempty, !groupby_agg_nil by done. done.
  - intros Hcan key g Hg. unfold V2.groupby_agg in Hg.
    apply list_elem_of_fmap in Hg as (k & -> & Hk). simpl.
    apply elem_of_group_keys in Hk as (_ & r & Hr & Hkey).
    destruct (Hcan r Hr) as (_ & s & Hs).
    apply (agg_mean_number _ s). rewrite <- Hs.
    apply (list_elem_of_fmap_2 (get "Satisfaction")).
    unfold V2.members. apply list_elem_of_filter. by split.
Qed.

End Rankings.

(** Two lines are the same when they hold the same numbers. *)
Lemma group_eq k (p p' s s' : Qc) :
  (p == p')%Q → (s == s')%Q →
  V2.mkGroup k p (Num s) = V2.mkGroup k p' (Num s').
Proof. intros Hp Hs. f_equal; [| f_equal]; by apply Qc_is_canon. Qed.

Ltac each_row H :=
  repeat (apply elem_of_cons in H as [-> | H]); [.. | by apply elem_of_nil in H].

Lemma dashboard_frame_canonical : canonical dashboard_frame.
Proof.
  intros r Hr. cbn [rows dashboard_frame] in Hr. each_row Hr.
  all: split; eexists; reflexivity.
Defined.

Lemma rankings_sorted_witness :
  canonical dashboard_frame ∧
  @V2.program_perf numerals dashboard_frame
  = [V2.mkGroup (Str "Quran Classes") (Qc_of_Z 16) (Num (Q2Qc (9 # 2)));
     V2.mkGroup (Str "Tafsir") (Qc_of_Z 4) (Num (Qc_of_Z 3))] ∧
  StronglySorted V2.by_participants_desc
    (@V2.program_perf numerals dashboard_frame) ∧
  (∀ g, g ∈ @V2.program_perf numerals dashboard_frame →
        @line_of numerals "Program" dashboard_frame g) ∧
  (∀ k, k ≠ NaN → k ∈ column "Category" dashboard_frame →
        k ∈ map V2.g_key (@V2.audience_perf numerals dashboard_frame)).
Proof.
  split; [exact dashboard_frame_canonical |].
  split; [vm_compute; f_equal; [| f_equal]; by apply group_eq |].
  destruct (@rankings_sorted numerals dashboard_frame dashboard_frame_canonical)
    as ((Hsorted & Hline & _) & _ & (_ & _ & Haudience)).
  split; [exact Hsorted |]. split; [exact Hline | exact Haudience].
Defined.

(** C9, as stated, fails: the lines of the rankings hold no count of
    records.  One session of ten and two sessions of five, rated alike,
    give the same line, so the number of records behind a line cannot be
    read off it. *)
Lemma ranking_has_no_count :
  ¬ (∃ count : V2.group → nat,
       ∀ (P : Pandas) df g, canonical df → g ∈ V2.program_perf df →
         count g
         = length (filter (λ r, get "Program" r = V2.g_key g) (rows df))).
Proof.
  intros [count Hcount].
  set (g := V2.mkGroup (Str "Tafsir") (Qc_of_Z 10) (Num (Qc_of_Z 4))).
  assert (@V2.program_perf numerals one_session = [g]) as H1.
  { vm_compute. f_equal. by apply group_eq. }
  assert (@V2.program_perf numerals two_sessions = [g]) as H2.
  { vm_compute. f_equal. by apply group_eq. }
  assert (canonical one_session) as K1.
  { intros r Hr. cbn [rows one_session sessions_frame] in Hr. each_row Hr.
    split; eexists; reflexivity. }
  assert (canonical two_sessions) as K2.
  { intros r Hr. cbn [rows two_sessions sessions_frame] in Hr. each_row Hr.
    all: split; eexists; reflexivity. }
  pose proof (Hcount numerals one_session g K1) as C1.
  pose proof (Hcount numerals two_sessions g K2) as C2.
  rewrite H1 in C1. rewrite H2 in C2.
  specialize (C1 (list_elem_of_here _ _)).
  specialize (C2 (list_elem_of_here _ _)).
  rewrite C1 in C2. vm_compute in C2. discriminate C2.
Qed.

(** C10, as stated, fails: with eleven audiences the audience ranking has
    eleven lines. *)
Lemma audience_ranking_is_not_cut :
  ¬ (∀ (P : Pandas) df, canonical df →
       (length (V2.program_perf df) ≤ 10)%nat ∧
       (length (V2.create_program_participants df) ≤ 10)%nat ∧
       (length (V2.create_program_distribution df) ≤ 10)%nat ∧
       (length (V2.audience_perf df) ≤ 10)%nat).
Proof.
  intros Hclaim.
  destruct (Hclaim numerals (@V2.normalize numerals audiences_table)
                   (@normalize_canonical numerals audiences_table))
    as (_ & _ & _ & Hcut).
  unfold V2.audience_perf in Hcut.
  rewrite length_sort_by_participants, length_groupby_agg in Hcut.
  assert (nunique (column "Category" (@V2.normalize numerals audiences_table))
          = 11%nat) as Hn by (vm_compute; reflexivity).
  rewrite Hn in Hcut. lia.
Qed.

Lemma empty_input_and_means_witness :
  @V2.calculate_metrics numerals empty_frame
  = V2.mkMetrics 0 0 (Num (Qc_of_Z 0)) 0 0 ∧
  ∃ m, V2.g_satisfaction
         (default (V2.mkGroup NaN (Qc_of_Z 0) NaN)
            (head (@V2.groupby_agg numerals "Program"
                     (@V2.normalize numerals quran_table))))
       = Num m.
Proof.
  split.
  - destruct (@empty_input_and_means numerals empty_frame) as (Hempty & _).
    destruct (Hempty eq_refl) as (_ & _ & _ & _ & _ & Hm). exact Hm.
  - destruct (@empty_input_and_means numerals
                (@V2.normalize numerals quran_table)) as (_ & Hmean).
    apply (Hmean (@normalize_canonical numerals quran_table) "Program").
    apply first_elem. rewrite length_groupby_agg. vm_compute. lia.
Defined.

(** C4, as stated, fails: the mean satisfaction of the empty sequence is
    reported as 0. *)
Lemma empty_mean_is_zero :
  ¬ (∀ (P : Pandas) df, rows df = [] →
       V2.avg_satisfaction (V2.calculate_metrics df) ≠ Num (Qc_of_Z 0) ∧
       V2.avg_satisfaction (V2.calculate_metrics df) ≠ NaN).
Proof.
  intros Hclaim. destruct (Hclaim numerals empty_frame eq_refl) as (Hzero & _).
  by apply Hzero.
Qed.

(** ** The row filter *)

Lemma boolean_index_masks (f1 f2 f3 : gmap string cell → bool)
    (P : gmap string cell → Prop) `{∀ r, Decision (P r)} rs :
  (∀ r, f1 r && f2 r && f3 r = bool_decide (P r)) →
  V2.boolean_index rs
    (V2.mask_and (V2.mask_and (map f1 rs) (map f2 rs)) (map f3 rs))
  = filter P rs.
Proof.
  intros Hmask. induction rs as [| r rs IH]; [done |].
  cbn [map V2.mask_and zip_with V2.boolean_index].
  fold (V2.mask_and (map f1 rs) (map f2 rs)).
  fold (V2.mask_and (V2.mask_and (map f1 rs) (map f2 rs)) (map f3 rs)).
  rewrite Hmask, IH, filter_cons. by case_bool_decide; case_decide.
Qed.

Lemma ge_scalar_rating x r :
  match get "Satisfaction" r with
  | Num q => bool_decide (x ≤ q)%Qc
  | _ => false
  end = bool_decide (rating_at_least x r).
Proof.
  symmetry. destruct (match get "Satisfaction" r with
                      | Num q => bool_decide (x ≤ q)%Qc
                      | _ => false
                      end) eqn:Hb.
  - apply bool_decide_eq_true. unfold rating_at_least.
    destruct (get "Satisfaction" r); try discriminate.
    by apply bool_decide_eq_true in Hb.
  - apply bool_decide_eq_false. unfold rating_at_least.
    destruct (get "Satisfaction" r); try tauto.
    by apply bool_decide_eq_false in Hb.
Qed.

(** C7.  The rows shown in the raw-data tab are exactly the records, in
    their order, whose program is in the program selection, whose category
    is in the category selection and whose rating is at least the
    threshold; with an empty selection no record is shown. *)
Theorem filter_contract df program_filter category_filter satisfaction_filter :
  V2.filtered_df df program_filter category_filter satisfaction_filter
  = filter (λ r, get "Program" r ∈ program_filter ∧
                 get "Category" r ∈ category_filter ∧
                 rating_at_least satisfaction_filter r) (rows df) ∧
  V2.filtered_df df [] category_filter satisfaction_filter = [] ∧
  V2.filtered_df df program_filter [] satisfaction_filter = [].
Proof.
  assert (∀ pf cf,
    V2.filtered_df df pf cf satisfaction_filter
    = filter (λ r, get "Program" r ∈ pf ∧ get "Category" r ∈ cf ∧
                   rating_at_least satisfaction_filter r) (rows df)) as Heq.
  { intros pf cf. unfold V2.filtered_df, V2.isin, V2.ge_scalar, column.
    rewrite !map_map. apply boolean_index_masks. intros r.
    rewrite ge_scalar_rating.
    repeat case_bool_decide; simpl; try done; tauto. }
  split; [apply Heq |]. split; rewrite Heq.
  - clear Heq. induction (rows df) as [| r rs IH]; [done |].
    rewrite filter_cons. case_decide as Hd; [| exact IH].
    destruct Hd as [Hin _]. by apply elem_of_nil in Hin.
  - clear Heq. induction (rows df) as [| r rs IH]; [done |].
    rewrite filter_cons. case_decide as Hd; [| exact IH].
    destruct Hd as (_ & Hin & _). by apply elem_of_nil in Hin.
Qed.

(** * The claim about a workbook that cannot be read *)

Lemma length_generate_sample_center_data rng name :
  length (rows (V1.generate_sample_center_data rng name)) = 500%nat.
Proof.
  unfold V1.generate_sample_center_data. cbn [rows].
  rewrite merge_sort_Permutation, length_map. apply length_seq.
Qed.

(** C8 (as amended).  [load_all_centers_data] answers a missing workbook and
    a workbook it cannot parse with an error on the page and the empty
    frame.  [load_center_data] answers a missing workbook with a warning and
    the 500 generated sample rows, and lets any other exception through. *)
Theorem unreadable_workbook :
  (∀ P : Pandas,
     @V2.load_all_centers_data P FileNotFoundError
     = (empty_frame, [st_error_file_not_found; st_info_place_file]) ∧
     (∀ e, @V2.load_all_centers_data P (OtherException e)
           = (empty_frame, [st_error_loading e])) ∧
     empty empty_frame = true) ∧
  (∀ rng name,
     V1.load_center_data rng name FileNotFoundError
     = V1.Returned (V1.generate_sample_center_data rng name)
                   [st_warning_sample_data name] ∧
     length (rows (V1.generate_sample_center_data rng name)) = 500%nat) ∧
  (∀ rng name e,
     V1.load_center_data rng name (OtherException e) = V1.Raised e).
Proof.
  split; [| split].
  - intros P. by repeat split.
  - intros rng name. split; [done |]. apply length_generate_sample_center_data.
  - done.
Qed.

(** C8, as stated, fails for [load_center_data]: a missing workbook is
    replaced by sample rows. *)
Lemma missing_workbook_gives_sample_data :
  ¬ ((∀ (P : Pandas) file, failed file →
        (@V2.load_all_centers_data P file).1 = empty_frame) ∧
     (∀ rng name file, failed file →
        ∃ shown, V1.load_center_data rng name file
                 = V1.Returned empty_frame shown)).
Proof.
  intros [_ Hclaim].
  destruct (Hclaim counting_draws "Aboubakr" FileNotFoundError I)
    as [shown Hload].
  apply (f_equal (λ o, match o with
                       | V1.Returned df _ => length (rows df)
                       | V1.Raised _ => 0%nat
                       end)) in Hload.
  change (length (rows (V1.generate_sample_center_data counting_draws "Aboubakr"))
          = 0%nat) in Hload.
  rewrite length_generate_sample_center_data in Hload. lia.
Qed.

(** ** The end-to-end example *)

(** Two rows for one programme at one centre, the second without head count
    and rating: two records, the second with 1 and 4; one group of two with
    11 participants and a mean rating of 4.5. *)
Example quran_example :
  map (λ r, map (λ c, get c r) ["Centre"; "Program"; "Participants";
                                 "Satisfaction"])
      (rows (@V2.load_all_centers_data numerals (Parsed quran_table)).1)
  = [[Str "A"; Str "Quran Classes"; int_cell 10; int_cell 5];
     [Str "A"; Str "Quran Classes"; int_cell 1; int_cell 4]] ∧
  @V2.program_perf numerals
    (@V2.load_all_centers_data numerals (Parsed quran_table)).1
  = [V2.mkGroup (Str "Quran Classes") (Qc_of_Z 11) (Num (Q2Qc (9 # 2)))] ∧
  V2.occurrences (Str "Quran Classes")
    (column "Program"
       (@V2.load_all_centers_data numerals (Parsed quran_table)).1) = 2%nat.
Proof.
  split; [vm_compute; reflexivity |]. split; [| vm_compute; reflexivity].
  vm_compute. f_equal. by apply group_eq.
Qed.

(** * More about the loader *)

Lemma columns_set_column c f df :
  columns (set_column c f df) = add_column c (columns df).
Proof. done. Qed.

Lemma add_column_id c cols : c ∈ cols → add_column c cols = cols.
Proof. intros Hc. unfold add_column. by rewrite bool_decide_eq_true_2. Qed.

Lemma elem_of_add_column c k cols :
  k ∈ add_column c cols ↔ k ∈ cols ∨ k = c.
Proof.
  unfold add_column. case_bool_decide as Hc.
  - split; [auto | intros [? | ->]; done].
  - rewrite elem_of_app, list_elem_of_singleton. tauto.
Qed.

Lemma prefix_add_column c cols : cols `prefix_of` add_column c cols.
Proof.
  unfold add_column. case_bool_decide; [done |]. by apply prefix_app_r.
Qed.

Lemma NoDup_add_column c cols : NoDup cols → NoDup (add_column c cols).
Proof.
  intros Hnd. unfold add_column. case_bool_decide as Hc; [done |].
  apply NoDup_app. split; [done |]. split.
  - intros k Hk Hk'. apply list_elem_of_singleton in Hk' as ->. done.
  - apply NoDup_singleton.
Qed.

Lemma columns_copy_column key src df :
  columns (V2.copy_column key src df) = add_column key (columns df).
Proof. unfold V2.copy_column. by destruct (V2.spreads key src df). Qed.

Section Header.
Context `{Pandas}.

Lemma columns_resolve_centre df :
  columns (V2.resolve_centre df) = add_column "Centre" (columns df).
Proof.
  unfold V2.resolve_centre.
  repeat case_match; done || apply columns_copy_column.
Qed.

Lemma columns_resolve_program df :
  columns (V2.resolve_program df) = add_column "Program" (columns df).
Proof.
  unfold V2.resolve_program.
  destruct (has_column "Program Name" df); [apply columns_copy_column |].
  destruct (has_column "Course Name" df); [apply columns_copy_column |].
  destruct (has_column "Program" df) eqn:E; simpl; [| done].
  symmetry. apply add_column_id. by apply has_column_true.
Qed.

Lemma columns_resolve_date df :
  columns (V2.resolve_date df) = columns df.
Proof.
  unfold V2.resolve_date. destruct (has_column "Date" df) eqn:E; [| done].
  rewrite columns_set_column. apply add_column_id. by apply has_column_true.
Qed.

Lemma columns_resolve_participants df :
  columns (V2.resolve_participants df) = add_column "Participants" (columns df).
Proof. unfold V2.resolve_participants. by case_match. Qed.

Lemma columns_resolve_satisfaction df :
  columns (V2.resolve_satisfaction df) = add_column "Satisfaction" (columns df).
Proof. unfold V2.resolve_satisfaction. by case_match. Qed.

Lemma columns_resolve_category df :
  columns (V2.resolve_category df) = add_column "Category" (columns df).
Proof.
  unfold V2.resolve_category.
  destruct (has_column "Target Audience" df); [apply columns_copy_column |].
  destruct (has_column "Category" df) eqn:E; simpl; [| done].
  symmetry. apply add_column_id. by apply has_column_true.
Qed.

Lemma columns_normalize t :
  columns (V2.normalize t)
  = foldl (λ cols c, add_column c cols) (map strip (columns t)) resolved_columns.
Proof.
  unfold V2.normalize, dropna_all. cbn [columns foldl resolved_columns].
  rewrite columns_resolve_category, columns_resolve_satisfaction,
    columns_resolve_participants, columns_resolve_date,
    columns_resolve_program, columns_resolve_centre.
  done.
Qed.

Lemma elem_of_columns_normalize t c :
  c ∈ columns (V2.normalize t) ↔
  c ∈ map strip (columns t) ∨ c ∈ resolved_columns.
Proof.
  rewrite columns_normalize. unfold resolved_columns. cbn [foldl].
  rewrite !elem_of_add_column. rewrite !elem_of_cons, elem_of_nil. tauto.
Qed.

Lemma NoDup_columns_normalize t :
  header_ok t → NoDup (columns (V2.normalize t)).
Proof.
  intros Hok. rewrite columns_normalize. unfold resolved_columns.
  cbn [foldl]. by repeat apply NoDup_add_column.
Qed.

Lemma load_frame_header_ok t :
  header_ok t → (V2.load_all_centers_data (Parsed t)).1 = V2.normalize t.
Proof. intros Hok. by rewrite load_frame, header_ok_raises. Qed.

(** X1.  When no statement of the loader raises, the frame it returns has
    the labels of the table, stripped, in their order, followed by those of
    Centre, Program, Participants, Satisfaction and Category that the table
    did not have; so the five columns the dashboard reads are there and no
    other column is added.  When one raises, the frame is the empty frame.
    A table whose stripped labels are all different is loaded, and no label
    comes twice in its frame. *)
Theorem loader_header t :
  let hdr := map strip (columns t) in
  let df_all := (V2.load_all_centers_data (Parsed t)).1 in
  (if V2.raises hdr then df_all = empty_frame
   else hdr `prefix_of` columns df_all ∧
        ∀ c, c ∈ columns df_all ↔ c ∈ hdr ∨ c ∈ resolved_columns) ∧
  (header_ok t → V2.raises hdr = false ∧ NoDup (columns df_all)).
Proof.
  intros hdr df_all. unfold df_all, hdr. split.
  - rewrite load_frame. destruct (V2.raises (map strip (columns t))); [done |].
    split; [| apply elem_of_columns_normalize].
    rewrite columns_normalize. unfold resolved_columns. cbn [foldl].
    repeat (etrans; [| apply prefix_add_column]). done.
  - intros Hok. split; [by apply header_ok_raises |].
    rewrite load_frame_header_ok by done. by apply NoDup_columns_normalize.
Qed.

End Header.

Section OtherColumns.
Context `{Pandas}.

(** X2.  In a table whose stripped labels are all different, a column that
    the loader does not resolve comes out cell for cell as it was read,
    under its stripped label. *)
Theorem other_columns_untouched t c :
  header_ok t → c ∈ columns t →
  strip c ∉ ["Centre"; "Program"; "Date"; "Participants"; "Satisfaction";
             "Category"] →
  column (strip c) (V2.load_all_centers_data (Parsed t)).1
  = map (get c) (rows t).
Proof.
  intros Hok Hc Hother. rewrite load_frame_header_ok by done.
  destruct (normalize_rows t) as (g & R & V).
  unfold column. rewrite R. cbn [strip_columns rows]. rewrite !map_map.
  apply map_ext. intros r.
  destruct (V (strip_row t r)) as (_ & _ & _ & _ & _ & VO).
  rewrite VO by done. apply get_strip_row; [by apply header_ok_count | done].
Qed.

Lemma normalize_rows_date t :
  let S := strip_columns t in
  ∃ g : gmap string cell → gmap string cell,
    rows (V2.normalize t) = map g (rows S) ∧
    ∀ r, get "Date" (g r) = date_value S r.
Proof.
  intros S. unfold V2.normalize. fold S.
  destruct (resolve_centre_writes S) as (g1 & R1 & _ & G1 & C1 & _).
  set (d1 := V2.resolve_centre S) in *.
  destruct (resolve_program_writes d1) as (g2 & R2 & _ & G2 & C2 & _).
  set (d2 := V2.resolve_program d1) in *.
  destruct (resolve_date_writes d2) as (g3 & R3 & V3 & G3 & C3 & _).
  set (d3 := V2.resolve_date d2) in *.
  destruct (resolve_participants_writes d3) as (g4 & R4 & V4 & G4 & C4 & _).
  pose proof (resolve_participants_has_column d3) as P4.
  set (d4 := V2.resolve_participants d3) in *.
  destruct (resolve_satisfaction_writes d4) as (g5 & R5 & _ & G5 & C5 & _).
  set (d5 := V2.resolve_satisfaction d4) in *.
  destruct (resolve_category_writes d5) as (g6 & R6 & _ & G6 & C6 & _).
  set (d6 := V2.resolve_category d5) in *.
  exists (g6 ∘ g5 ∘ g4 ∘ g3 ∘ g2 ∘ g1).
  assert (rows d6 = map (g6 ∘ g5 ∘ g4 ∘ g3 ∘ g2 ∘ g1) (rows S)) as R.
  { rewrite R6, R5, R4, R3, R2, R1. by rewrite !map_map. }
  split.
  - transitivity (rows d6); [| exact R].
    apply (rows_dropna_all d6 "Participants").
    + apply (proj1 (has_column_true _ _)). rewrite C6, C5 by done. exact P4.
    + intros r' Hr'. rewrite R in Hr'.
      apply list_elem_of_fmap in Hr' as (r & -> & _). simpl.
      rewrite G6, G5, V4 by done.
      destruct (participants_value_number d3 ((g3 ∘ g2 ∘ g1) r)) as [p Hp].
      simpl in Hp. by rewrite Hp.
  - intros r. simpl. rewrite G6, G5, G4, V3 by done.
    unfold date_value. rewrite C2, C1 by done. rewrite G2, G1 by done.
    assert (column "Date" d2 = column "Date" S) as ->; [| done].
    unfold column. rewrite R2, R1, !map_map. apply map_ext. intros r'.
    by rewrite G2, G1.
Qed.

Lemma to_datetime_kind col c :
  to_datetime col c = NaN ∨ ∃ d, to_datetime col c = Time d.
Proof.
  destruct c as [| q | s | d]; simpl; eauto.
  - destruct (number_time col q); simpl; eauto.
  - destruct (text_time col s); simpl; eauto.
  - destruct (time_time col d); simpl; eauto.
Qed.

(** X3.  In a table whose stripped labels are all different: with a Date
    column, every Date cell the loader returns is a timestamp or missing:
    the cell of the table read as a date of its column, a missing value
    and anything unreadable as a missing value.  Without one, the frame
    gets no Date column. *)
Theorem dates_coerced t :
  header_ok t →
  let df_all := (V2.load_all_centers_data (Parsed t)).1 in
  (∀ c, c ∈ columns t → strip c = "Date" →
     column "Date" df_all
     = map (to_datetime (map (get c) (rows t))) (map (get c) (rows t)) ∧
     (∀ i, map (get c) (rows t) !! i = Some NaN →
           column "Date" df_all !! i = Some NaN) ∧
     ∀ d, d ∈ column "Date" df_all → d = NaN ∨ ∃ z, d = Time z) ∧
  ("Date" ∉ map strip (columns t) → has_column "Date" df_all = false).
Proof.
  intros Hok df_all. unfold df_all. rewrite load_frame_header_ok by done.
  split.
  - intros c Hc Hs.
    assert (∀ r, get "Date" (strip_row t r) = get c r) as Hget.
    { intros r. rewrite <- Hs.
      apply get_strip_row; [by apply header_ok_count | done]. }
    assert (column "Date" (V2.normalize t)
            = map (to_datetime (map (get c) (rows t))) (map (get c) (rows t)))
      as Hcol.
    { destruct (normalize_rows_date t) as (g & R & V).
      unfold column. rewrite R. cbn [strip_columns rows]. rewrite !map_map.
      apply map_ext. intros r. rewrite V. unfold date_value.
      rewrite <- Hs, has_column_stripped by done. rewrite Hs, Hget.
      f_equal. unfold column. cbn [strip_columns rows]. rewrite map_map.
      apply map_ext. intros r'. apply Hget. }
    split; [exact Hcol |].
    split; [intros i Hi; rewrite Hcol, list_lookup_fmap, Hi; done |].
    intros d Hd. rewrite Hcol in Hd.
    apply list_elem_of_fmap in Hd as (r & -> & _). apply to_datetime_kind.
  - intros Habs. apply has_column_false.
    rewrite elem_of_columns_normalize.
    intros [Hin | Hin]; [done |].
    unfold resolved_columns in Hin.
    repeat (apply elem_of_cons in Hin as [Hin | Hin]; [discriminate |]).
    by apply elem_of_nil in Hin.
Qed.

End OtherColumns.

Lemma other_columns_untouched_witness :
  column "Location"
    (@V2.load_all_centers_data numerals (Parsed two_locations_table)).1
  = [Str "Y"].
Proof.
  change "Location" with (@strip numerals "Location") at 1.
  rewrite (@other_columns_untouched numerals two_locations_table "Location").
  - reflexivity.
  - by_evaluation.
  - by_evaluation.
  - vm_compute. not_written.
Defined.

(** * Groups and counts *)

Section Partition.
Context {A K M : Type} `{EqDecision K} (op : M → M → M) (e : M).
Context `{!Assoc (=) op, !Comm (=) op, !LeftId (=) e op}.
Context (f : A → K) (w : A → M).

Lemma foldr_filter_none (l : list A) :
  foldr op e (map w (filter (λ x, f x ∈ @nil K) l)) = e.
Proof.
  induction l as [| x l IH]; [done |].
  rewrite filter_cons_False; [done |]. apply not_elem_of_nil.
Qed.

Lemma foldr_filter_split k ks (l : list A) :
  k ∉ ks →
  foldr op e (map w (filter (λ x, f x ∈ k :: ks) l))
  = op (foldr op e (map w (filter (λ x, f x = k) l)))
       (foldr op e (map w (filter (λ x, f x ∈ ks) l))).
Proof.
  intros Hk. induction l as [| x l IH]; [by rewrite left_id |].
  rewrite !filter_cons.
  destruct (decide (f x = k)) as [Hx | Hx].
  - rewrite decide_True by (rewrite Hx; left).
    rewrite (decide_False (P := f x ∈ ks)) by (by rewrite Hx).
    cbn [map foldr]. rewrite IH. by rewrite (assoc op).
  - destruct (decide (f x ∈ ks)) as [Hin | Hin].
    + rewrite decide_True by (by right).
      cbn [map foldr]. rewrite IH.
      rewrite !(assoc op). f_equal. apply (comm op).
    + rewrite decide_False; [exact IH |].
      intros Hin'. apply elem_of_cons in Hin' as [? | ?]; done.
Qed.

Lemma foldr_partition ks (l : list A) :
  NoDup ks →
  foldr op e (map (λ k, foldr op e (map w (filter (λ x, f x = k) l))) ks)
  = foldr op e (map w (filter (λ x, f x ∈ ks) l)).
Proof.
  induction 1 as [| k ks Hk Hnd IH]; cbn [map foldr].
  - by rewrite foldr_filter_none.
  - by rewrite IH, foldr_filter_split.
Qed.

End Partition.

Lemma length_weights {A} (l : list A) :
  length l = foldr Nat.add 0%nat (map (λ _, 1%nat) l).
Proof. induction l; simpl; by f_equal. Qed.

Lemma filter_ext_elem {A} (P Q : A → Prop)
    `{∀ x, Decision (P x), ∀ x, Decision (Q x)} (l : list A) :
  (∀ x, x ∈ l → P x ↔ Q x) → filter P l = filter Q l.
Proof.
  induction l as [| x l IH]; intros Hext; [done |].
  rewrite !filter_cons.
  assert (filter P l = filter Q l) as ->.
  { apply IH. intros y Hy. apply Hext. by right. }
  pose proof (Hext x (list_elem_of_here _ _)) as Hx.
  destruct (decide (P x)) as [HP | HP], (decide (Q x)) as [HQ | HQ];
    try done; tauto.
Qed.

Lemma sum_list_foldr (l : list nat) : sum_list l = foldr Nat.add 0%nat l.
Proof. induction l; simpl; by f_equal. Qed.

Section Groups.
Context `{Pandas}.

(** X5.  A grouped table has one line for every value of the key that
    occurs and none for the missing value, no value twice, and no line
    without a record behind it; the programme ranking, cut or not, lists no
    programme twice. *)
Theorem one_line_per_key key df :
  NoDup (map V2.g_key (V2.groupby_agg key df)) ∧
  (∀ k, k ∈ map V2.g_key (V2.groupby_agg key df) ↔
        k ≠ NaN ∧ k ∈ column key df) ∧
  (∀ g, g ∈ V2.groupby_agg key df → V2.members key (V2.g_key g) df ≠ []) ∧
  NoDup (map V2.g_key (V2.program_perf df)) ∧
  NoDup (map V2.g_key (V2.audience_perf df)).
Proof.
  assert (∀ l, l ≡ₚ V2.groupby_agg "Program" df ∨
               l ≡ₚ V2.groupby_agg "Category" df →
               NoDup (map V2.g_key l)) as Hperm.
  { intros l [-> | ->]; rewrite groupby_agg_keys; apply NoDup_group_keys. }
  split; [rewrite groupby_agg_keys; apply NoDup_group_keys |].
  split; [| split; [| split]].
  - intros k. rewrite groupby_agg_keys, elem_of_group_keys.
    unfold column. rewrite list_elem_of_fmap. split.
    + intros (Hna & r & Hr & Hk). eauto.
    + intros (Hna & r & Hk & Hr). eauto.
  - intros g Hg Hnil. unfold V2.groupby_agg in Hg.
    apply list_elem_of_fmap in Hg as (k & -> & Hk). simpl in Hnil.
    apply elem_of_group_keys in Hk as (_ & r & Hr & Hkey).
    assert (r ∈ V2.members key k df) as Hin
      by (unfold V2.members; by apply list_elem_of_filter).
    rewrite Hnil in Hin. by apply elem_of_nil in Hin.
  - unfold V2.program_perf, V2.head.
    eapply sublist_NoDup; [| apply fmap_sublist, sublist_take].
    apply Hperm. left. unfold V2.sort_by_participants.
    by rewrite merge_sort_Permutation.
  - apply Hperm. right. unfold V2.audience_perf, V2.sort_by_participants.
    by rewrite merge_sort_Permutation.
Qed.

(** X6.  The ten programmes kept are the ten largest: no programme left
    out of the programme ranking or of the participants chart has a larger
    participants sum than one that is shown. *)
Theorem top_ten_are_largest df g g' :
  g' ∈ V2.groupby_agg "Program" df →
  (g ∈ V2.program_perf df → g' ∉ V2.program_perf df →
     (V2.g_participants g' ≤ V2.g_participants g)%Qc) ∧
  (g ∈ V2.create_program_participants df →
     g' ∉ V2.create_program_participants df →
     (V2.g_participants g' ≤ V2.g_participants g)%Qc).
Proof.
  intros Hg'.
  pose proof (sort_by_participants_sorted (V2.groupby_agg "Program" df)) as Hs.
  rewrite <- (take_drop 10) in Hs. apply StronglySorted_app in Hs as (Hs & _).
  assert (g ∈ V2.program_perf df → g' ∉ V2.program_perf df →
          (V2.g_participants g' ≤ V2.g_participants g)%Qc) as Hperf.
  { unfold V2.program_perf, V2.head. intros Hg Hout. apply (Hs g g' Hg).
    apply elem_of_sort_by_participants in Hg'.
    rewrite <- (take_drop 10 (V2.sort_by_participants _)) in Hg'.
    apply elem_of_app in Hg' as [Hin | Hin]; done. }
  split; [exact Hperf |].
  unfold V2.create_program_participants. destruct (empty df).
  - intros Hg. by apply elem_of_nil in Hg.
  - exact Hperf.
Qed.

End Groups.

(** * Counting values *)

Global Instance by_count_desc_trans : Transitive V2.by_count_desc.
Proof. intros a b c. unfold V2.by_count_desc. lia. Qed.

Global Instance by_count_desc_total : Total V2.by_count_desc.
Proof. intros a b. unfold V2.by_count_desc. lia. Qed.

Lemma value_counts_Permutation l :
  V2.value_counts l
  ≡ₚ map (λ k, (k, V2.occurrences k l))
         (remove_dups (filter (λ c, isna c = false) l)).
Proof. unfold V2.value_counts. apply merge_sort_Permutation. Qed.

Lemma elem_of_value_counts l k n :
  (k, n) ∈ V2.value_counts l ↔ k ≠ NaN ∧ k ∈ l ∧ n = V2.occurrences k l.
Proof.
  rewrite value_counts_Permutation, list_elem_of_fmap. split.
  - intros (k' & [= -> ->] & Hk).
    apply elem_of_remove_dups, list_elem_of_filter in Hk as [Hna Hk].
    split; [intros ->; done | done].
  - intros (Hna & Hk & ->). exists k. split; [done |].
    apply elem_of_remove_dups, list_elem_of_filter. split; [| done].
    by destruct k.
Qed.

Lemma value_counts_keys l :
  map fst (V2.value_counts l)
  ≡ₚ remove_dups (filter (λ c, isna c = false) l).
Proof.
  rewrite value_counts_Permutation, map_map.
  by rewrite (map_ext _ id) by done; rewrite map_id.
Qed.

Lemma value_counts_sorted l : StronglySorted V2.by_count_desc (V2.value_counts l).
Proof. apply StronglySorted_merge_sort; apply _. Qed.

Lemma value_counts_total l :
  sum_list (map snd (V2.value_counts l))
  = length (filter (λ c, isna c = false) l).
Proof.
  rewrite value_counts_Permutation, map_map. cbn [snd].
  rewrite sum_list_foldr. unfold V2.occurrences.
  erewrite map_ext; [| intros k; apply length_weights].
  rewrite (foldr_partition Nat.add 0%nat (λ c : cell, c) (λ _, 1%nat))
    by apply NoDup_remove_dups.
  rewrite <- length_weights. f_equal.
  apply filter_ext_elem. intros c Hc.
  rewrite elem_of_remove_dups, list_elem_of_filter. tauto.
Qed.

(** X7.  The slices of the audience pie are the audiences of the records,
    each once, and together they count every record that has an audience;
    the pie is handed one colour per slice up to seven, and no more than
    seven. *)
Theorem audience_pie df :
  empty df = false →
  let (slices, marker_colors) := V2.create_target_audience_breakdown df in
  NoDup (map fst slices) ∧
  (∀ k, k ∈ map fst slices ↔ k ≠ NaN ∧ k ∈ column "Category" df) ∧
  sum_list (map snd slices)
  = length (filter (λ r, isna (get "Category" r) = false) (rows df)) ∧
  length marker_colors = Nat.min (length slices) 7.
Proof.
  intros Hne. unfold V2.create_target_audience_breakdown. rewrite Hne.
  split; [| split; [| split]].
  - rewrite value_counts_keys. apply NoDup_remove_dups.
  - intros k. rewrite value_counts_keys, elem_of_remove_dups.
    rewrite list_elem_of_filter. split.
    + intros [Hna Hk]. split; [by intros -> | done].
    + intros [Hna Hk]. split; [by destruct k | done].
  - rewrite value_counts_total. unfold column.
    induction (rows df) as [| r rs IH]; [done |].
    cbn [map]. rewrite !filter_cons.
    destruct (decide (isna (get "Category" r) = false)); simpl; by rewrite IH.
  - by rewrite length_take.
Qed.

(** X8.  The ten programmes of the distribution chart are the ten most
    frequent: each is shown with the number of its records, and no
    programme left out has more records than one that is shown. *)
Theorem distribution_top_ten df k n :
  (k, n) ∈ V2.create_program_distribution df →
  n = length (filter (λ r, get "Program" r = k) (rows df)) ∧
  ∀ k', k' ≠ NaN → k' ∈ column "Program" df →
        k' ∉ map fst (V2.create_program_distribution df) →
        (length (filter (λ r, get "Program" r = k') (rows df)) ≤ n)%nat.
Proof.
  unfold V2.create_program_distribution. destruct (empty df).
  { intros Hkn. by apply elem_of_nil in Hkn. }
  unfold V2.head. intros Hkn.
  assert (∀ c, V2.occurrences c (column "Program" df)
               = length (filter (λ r, get "Program" r = c) (rows df))) as Hocc.
  { intros c. unfold V2.occurrences, column.
    induction (rows df) as [| r rs IH]; [done |].
    cbn [map]. rewrite !filter_cons.
    destruct (decide (get "Program" r = c)); simpl; by rewrite IH. }
  pose proof (value_counts_sorted (column "Program" df)) as Hs.
  rewrite <- (take_drop 10) in Hs. apply StronglySorted_app in Hs as (Hs & _).
  split.
  - apply (subseteq_take 10), elem_of_value_counts in Hkn as (_ & _ & ->).
    apply Hocc.
  - intros k' Hna Hk' Hout. rewrite <- Hocc.
    assert ((k', V2.occurrences k' (column "Program" df))
            ∈ V2.value_counts (column "Program" df)) as Hin
      by (by apply elem_of_value_counts).
    rewrite <- (take_drop 10 (V2.value_counts _)) in Hin.
    apply elem_of_app in Hin as [Hin | Hin].
    + exfalso. apply Hout.
      by apply (list_elem_of_fmap_2 fst) in Hin.
    + apply (Hs _ _ Hkn Hin).
Qed.

(** * Key metrics *)

Lemma nunique_le l : (nunique l ≤ length l)%nat.
Proof.
  unfold nunique. etrans; [| apply (length_filter (λ c, isna c = false))].
  apply submseteq_length, NoDup_submseteq; [apply NoDup_remove_dups |].
  intros x. by rewrite elem_of_remove_dups.
Qed.

Section Metrics.
Context `{Pandas}.

(** X10.  For a centre with records, Total Programs is the number of its
    records and is at least 1, Unique Programs and Audiences never exceed
    it, and Total Participants is the whole part of what [Series.sum] makes
    of the Participants column. *)
Theorem metrics_totals df :
  empty df = false →
  let m := V2.calculate_metrics df in
  V2.total_programs m = length (rows df) ∧
  (1 ≤ V2.total_programs m)%nat ∧
  (V2.unique_programs m ≤ V2.total_programs m)%nat ∧
  (V2.target_audiences m ≤ V2.total_programs m)%nat ∧
  V2.total_participants m
  = V2.int (nansum (map (λ r, V2.number (get "Participants" r)) (rows df))).
Proof.
  intros Hne m. unfold m, V2.calculate_metrics. rewrite Hne.
  cbn [V2.total_programs V2.unique_programs V2.target_audiences
         V2.total_participants].
  split; [done |]. split; [| split; [| split]].
  - unfold empty in Hne. destruct (columns df), (rows df); simpl; done || lia.
  - etrans; [apply nunique_le |]. unfold column. by rewrite length_map.
  - etrans; [apply nunique_le |]. unfold column. by rewrite length_map.
  - unfold V2.series_sum, column. by rewrite map_map.
Qed.

End Metrics.

(** * Selections *)

Global Instance key_le_total : Total V2.key_le.
Proof.
  intros [| x | s | t] [| y | s' | t']; simpl; auto.
  - apply Qc_le_total.
  - apply String.leb_total.
  - lia.
Qed.

Lemma sorted_Some l l' :
  V2.sorted l = Some l' → l' ≡ₚ l ∧ Sorted V2.key_le l'.
Proof.
  unfold V2.sorted. destruct (V2.comparable l); [| done].
  intros [= <-]. split; [apply merge_sort_Permutation |].
  apply Sorted_merge_sort, _.
Qed.

Lemma elem_of_df_centre df c r :
  r ∈ rows (V2.df_centre df c) ↔ r ∈ rows df ∧ get "Centre" r = c ∧ c ≠ NaN.
Proof. unfold V2.df_centre. cbn [rows]. rewrite list_elem_of_filter. tauto. Qed.

(** X11.  The centres offered for selection are the centres of the records,
    each once, in order, without the missing value.  Selecting one shows
    exactly the records of that centre; every record that has a centre is
    shown under exactly one centre, and a record without a centre is shown
    under none. *)
Theorem centre_selection df cl :
  V2.centre_list df = Some cl →
  NoDup cl ∧ Sorted V2.key_le cl ∧
  (∀ c, c ∈ cl ↔ c ≠ NaN ∧ c ∈ column "Centre" df) ∧
  (∀ c r, r ∈ rows (V2.df_centre df c) ↔
          r ∈ rows df ∧ get "Centre" r = c ∧ c ≠ NaN) ∧
  sum_list (map (λ c, length (rows (V2.df_centre df c))) cl)
  = length (filter (λ r, isna (get "Centre" r) = false) (rows df)).
Proof.
  unfold V2.centre_list, unique. intros Hcl.
  apply sorted_Some in Hcl as [Hperm Hsorted].
  assert (∀ c, c ∈ cl ↔ c ≠ NaN ∧ c ∈ column "Centre" df) as Hin.
  { intros c. rewrite Hperm, elem_of_remove_dups, list_elem_of_filter. split.
    - intros [Hna Hc]. split; [by intros -> | done].
    - intros [Hna Hc]. split; [by destruct c | done]. }
  assert (NoDup cl) as Hnd by (rewrite Hperm; apply NoDup_remove_dups).
  split; [done |]. split; [done |]. split; [done |].
  split; [apply elem_of_df_centre |].
  rewrite sum_list_foldr.
  transitivity (foldr Nat.add 0%nat
    (map (λ c, foldr Nat.add 0%nat
                 (map (λ _, 1%nat) (filter (λ r, get "Centre" r = c) (rows df))))
         cl)).
  { f_equal. apply map_ext_in. intros c Hc%list_elem_of_In.
    rewrite <- length_weights. unfold V2.df_centre. cbn [rows]. f_equal.
    apply filter_ext_elem. intros r _. apply Hin in Hc as [Hna _]. tauto. }
  rewrite (foldr_partition Nat.add 0%nat) by done.
  rewrite <- length_weights. f_equal. apply filter_ext_elem. intros r Hr.
  rewrite Hin. unfold column. split.
  - intros [Hna _]. by destruct (get "Centre" r).
  - intros Hna. split; [by intros Heq; rewrite Heq in Hna |].
    by apply (list_elem_of_fmap_2 (get "Centre")).
Qed.

Lemma nunique_constant l a :
  l ≠ [] → a ≠ NaN → (∀ c, c ∈ l → c = a) → nunique l = 1%nat.
Proof.
  intros Hne Hna Hl. unfold nunique.
  pose proof (NoDup_remove_dups (filter (λ c, isna c = false) l)) as Hnd.
  assert (∀ x, x ∈ remove_dups (filter (λ c, isna c = false) l) → x = a) as Hall.
  { intros x Hx. apply elem_of_remove_dups, list_elem_of_filter in Hx as [_ Hx].
    by apply Hl. }
  assert (a ∈ remove_dups (filter (λ c, isna c = false) l)) as Ha.
  { apply elem_of_remove_dups, list_elem_of_filter.
    destruct l as [| c l]; [done |].
    rewrite <- (Hl c) by left. split; [| left].
    rewrite (Hl c) by left. by destruct a. }
  destruct (remove_dups (filter (λ c, isna c = false) l)) as [| x [| y L]].
  - by apply elem_of_nil in Ha.
  - done.
  - exfalso. apply NoDup_cons in Hnd as [Hx _]. apply Hx.
    rewrite (Hall x) by left. rewrite <- (Hall y) at 1 by (right; left). left.
Qed.

Section Audience.
Context `{Pandas}.

(** X12.  After an audience has been selected in the dashboard tab, the
    records behind the metrics are the records of the centre with that
    audience, so the Audiences metric of a selection with records is 1. *)
Theorem audience_selection df a :
  let d := V2.select_audience df a in
  empty d = false →
  (∀ r, r ∈ rows d ↔ r ∈ rows df ∧ get "Category" r = a ∧ a ≠ NaN) ∧
  V2.target_audiences (V2.calculate_metrics d) = 1%nat ∧
  (V2.total_programs (V2.calculate_metrics d) ≤ length (rows df))%nat.
Proof.
  intros d Hne.
  assert (∀ r, r ∈ rows d ↔ r ∈ rows df ∧ get "Category" r = a ∧ a ≠ NaN) as Hin.
  { intros r. unfold d, V2.select_audience. cbn [rows].
    rewrite list_elem_of_filter. tauto. }
  split; [exact Hin |].
  unfold V2.calculate_metrics. rewrite Hne.
  cbn [V2.target_audiences V2.total_programs]. split.
  - assert (rows d ≠ []) as Hrows.
    { unfold empty in Hne. destruct (columns d), (rows d); done. }
    destruct (rows d) as [| r0 rs] eqn:E; [done |].
    assert (a ≠ NaN) as Hna.
    { assert (r0 ∈ r0 :: rs) as H0 by left. apply Hin in H0. tauto. }
    apply (nunique_constant _ a); [unfold column; by rewrite E | done |].
    intros c Hc. unfold column in Hc.
    apply list_elem_of_fmap in Hc as (r & -> & Hr). rewrite E in Hr.
    apply Hin in Hr. tauto.
  - unfold d, V2.select_audience. cbn [rows]. apply length_filter.
Qed.

End Audience.

(** * The raw-data tab *)

Lemma elem_of_unique_in_order l x : x ∈ unique_in_order l ↔ x ∈ l.
Proof.
  unfold unique_in_order.
  by rewrite elem_of_reverse, elem_of_remove_dups, elem_of_reverse.
Qed.

Lemma filter_all {A} (P : A → Prop) `{∀ x, Decision (P x)} (l : list A) :
  (∀ x, x ∈ l → P x) → filter P l = l.
Proof.
  induction l as [| x l IH]; intros Hl; [done |].
  rewrite filter_cons_True by (apply Hl; left).
  f_equal. apply IH. intros y Hy. apply Hl. by right.
Qed.

Lemma filtered_df_filter df pf cf thr :
  V2.filtered_df df pf cf thr
  = filter (λ r, get "Program" r ∈ pf ∧ get "Category" r ∈ cf ∧
                 rating_at_least thr r) (rows df).
Proof.
  unfold V2.filtered_df, V2.isin, V2.ge_scalar, column.
  rewrite !map_map. apply boolean_index_masks. intros r.
  rewrite ge_scalar_rating.
  repeat case_bool_decide; simpl; try done; tauto.
Qed.

(** X13.  Before the user touches the filters of the raw-data tab, it shows
    the records of the first five programmes of the centre, in the order in
    which the programmes first appear, and hides every other programme; it
    shows every record only when the centre has at most five programmes.
    This is for ratings of at least 1, the lowest threshold the slider
    offers. *)
Theorem default_view df :
  (∀ r, r ∈ rows df → rating_at_least (Qc_of_Z 1) r) →
  let shown :=
    V2.filtered_df df (V2.default_program_filter df)
      (V2.default_category_filter df) V2.default_satisfaction_filter in
  shown = filter (λ r, get "Program" r
                       ∈ take 5 (unique_in_order (column "Program" df)))
                 (rows df) ∧
  ((length (unique_in_order (column "Program" df)) ≤ 5)%nat → shown = rows df).
Proof.
  intros Hr shown.
  assert (shown = filter (λ r, get "Program" r
                               ∈ take 5 (unique_in_order (column "Program" df)))
                         (rows df)) as Hshown.
  { unfold shown. rewrite filtered_df_filter. apply filter_ext_elem.
    intros r Hin. unfold V2.default_program_filter, V2.default_category_filter,
      V2.default_satisfaction_filter.
    assert ((0 <? length (rows df))%nat = true) as ->.
    { apply Nat.ltb_lt. destruct (rows df); [by apply elem_of_nil in Hin |].
      simpl. lia. }
    split; [tauto |]. intros Hp. split; [done |]. split; [| by apply Hr].
    apply elem_of_unique_in_order. unfold column.
    by apply (list_elem_of_fmap_2 (get "Category")). }
  split; [exact Hshown |]. intros Hfew. rewrite Hshown.
  rewrite take_ge by done. apply filter_all. intros r Hin.
  apply elem_of_unique_in_order. unfold column.
  by apply (list_elem_of_fmap_2 (get "Program")).
Qed.

Lemma filter_sublist {A} (P Q : A → Prop)
    `{∀ x, Decision (P x), ∀ x, Decision (Q x)} (l : list A) :
  (∀ x, P x → Q x) → filter P l `sublist_of` filter Q l.
Proof.
  intros HPQ. induction l as [| x l IH]; [done |].
  rewrite !filter_cons. destruct (decide (P x)) as [HP | HP].
  - rewrite decide_True by auto. by apply sublist_skip.
  - destruct (decide (Q x)); [by apply sublist_cons | done].
Qed.

(** X14.  Narrowing a selection or raising the threshold only takes rows
    away: what is shown then is, in the same order, part of what was shown
    before, which is part of the records of the centre. *)
Theorem filter_narrows df pf pf' cf cf' (thr thr' : Qc) :
  pf ⊆ pf' → cf ⊆ cf' → (thr' ≤ thr)%Qc →
  V2.filtered_df df pf cf thr `sublist_of` V2.filtered_df df pf' cf' thr' ∧
  V2.filtered_df df pf' cf' thr' `sublist_of` rows df.
Proof.
  intros Hpf Hcf Hthr. rewrite !filtered_df_filter. split.
  - apply filter_sublist. intros r (Hp & Hc & Hs).
    split; [by apply Hpf |]. split; [by apply Hcf |].
    unfold rating_at_least in *. destruct (get "Satisfaction" r); try done.
    by eapply Qcle_trans.
  - apply sublist_filter.
Qed.

(** * The first dashboard *)

Lemma idxmax_None l : V1.idxmax l = None ↔ l = [].
Proof.
  split; [| by intros ->]. destruct l as [| x l]; [done |].
  cbn [V1.idxmax]. destruct (V1.idxmax l); [case_match |]; done.
Qed.

Lemma idxmax_Some l x :
  V1.idxmax l = Some x → x ∈ l ∧ ∀ y, y ∈ l → (y.2 ≤ x.2)%nat.
Proof.
  revert x. induction l as [| z l IH]; intros x; [done |].
  cbn [V1.idxmax]. destruct (V1.idxmax l) as [m |] eqn:E.
  - destruct (IH m eq_refl) as [Hm Hmax].
    destruct (m.2 <=? z.2)%nat eqn:Hle; intros [= <-].
    + apply Nat.leb_le in Hle. split; [left |].
      intros y [-> | Hy]%elem_of_cons; [lia |].
      specialize (Hmax y Hy). lia.
    + apply Nat.leb_gt in Hle. split; [by right |].
      intros y [-> | Hy]%elem_of_cons; [lia | by apply Hmax].
  - apply idxmax_None in E as ->. intros [= <-]. split; [left |].
    intros y [-> | Hy]%elem_of_cons; [lia | by apply elem_of_nil in Hy].
Qed.

Lemma filter_none {A} (P : A → Prop) `{∀ x, Decision (P x)} (l : list A) :
  (∀ x, x ∈ l → ¬ P x) → filter P l = [].
Proof.
  induction l as [| x l IH]; intros Hl; [done |].
  rewrite filter_cons_False by (apply Hl; left).
  apply IH. intros y Hy. apply Hl. by right.
Qed.

Lemma occurrences_absent k l : k ∉ l → V2.occurrences k l = 0%nat.
Proof.
  intros Hk. unfold V2.occurrences. rewrite filter_none; [done |].
  by intros x Hx ->.
Qed.

Lemma occurrences_column c k df :
  V2.occurrences k (column c df)
  = length (filter (λ r, get c r = k) (rows df)).
Proof.
  unfold V2.occurrences, column.
  induction (rows df) as [| r rs IH]; [done |].
  cbn [map]. rewrite !filter_cons.
  destruct (decide (get c r = k)); simpl; by rewrite IH.
Qed.

(** X15.  The top programme (or category) of the first dashboard is a value
    that occurs most often: no other value of the column has more records.
    Without records it is the text N/A; with records that all lack the
    value there is nothing to take the maximum of and the call fails. *)
Theorem top_is_most_frequent c df :
  (rows df = [] → V1.top c df = Some (Str "N/A")) ∧
  (rows df ≠ [] →
     (V1.top c df = None ↔ ∀ r, r ∈ rows df → get c r = NaN) ∧
     ∀ k, V1.top c df = Some k →
       k ≠ NaN ∧ k ∈ column c df ∧
       ∀ k', k' ≠ NaN →
         (length (filter (λ r, get c r = k') (rows df))
          ≤ length (filter (λ r, get c r = k) (rows df)))%nat).
Proof.
  unfold V1.top. split; [by intros -> |]. intros Hne.
  assert ((0 <? length (rows df))%nat = true) as ->.
  { apply Nat.ltb_lt. destruct (rows df); [done | simpl; lia]. }
  split.
  - rewrite fmap_None, idxmax_None. split.
    + intros Hnil r Hr. destruct (get c r) eqn:E; [done | exfalso..].
      all: assert ((get c r, V2.occurrences (get c r) (column c df))
                   ∈ V2.value_counts (column c df)) as Hin
             by (apply elem_of_value_counts; rewrite E; split; [done |];
                 split; [| done]; rewrite <- E;
                 by apply (list_elem_of_fmap_2 (get c))).
      all: rewrite Hnil in Hin; by apply elem_of_nil in Hin.
    + intros Hall. destruct (V2.value_counts (column c df)) as [| [k n] l] eqn:E;
        [done |].
      assert ((k, n) ∈ V2.value_counts (column c df)) as Hin by (rewrite E; left).
      apply elem_of_value_counts in Hin as (Hna & Hk & _).
      unfold column in Hk. apply list_elem_of_fmap in Hk as (r & -> & Hr).
      by rewrite Hall in Hna.
  - intros k Hk. apply fmap_Some in Hk as ([k0 n] & Hmax & ->).
    apply idxmax_Some in Hmax as [Hin Hmax]. cbn [fst].
    apply elem_of_value_counts in Hin as (Hna & Hk & ->).
    split; [done |]. split; [done |]. intros k' Hna'.
    rewrite <- !occurrences_column.
    destruct (decide (k' ∈ column c df)) as [Hk' | Hk'].
    + apply (Hmax (k', V2.occurrences k' (column c df))).
      by apply elem_of_value_counts.
    + rewrite (occurrences_absent k') by done. lia.
Qed.

(** * The trend and the rating bars *)

Section Trends.
Context `{Pandas}.

Lemma create_participants_trend_eq (m : Z → Z) df :
  V2.create_participants_trend m df
  = if empty df || negb (has_column "Date" df) then []
    else
      let dated := filter (λ r, isna (get "Date" r) = false) (rows df) in
      map (λ mo, (mo, V2.agg_sum
                        (map (get "Participants")
                             (filter (λ r, V2.month m (get "Date" r) = Some mo)
                                     dated))))
          (merge_sort Z.le
             (remove_dups (omap (λ r, V2.month m (get "Date" r)) dated))).
Proof.
  unfold V2.create_participants_trend.
  destruct (empty df || negb (has_column "Date" df)); [done |].
  cbn zeta. by destruct (filter _ (rows df)).
Qed.

Lemma month_dated (m : Z → Z) c : is_Some (V2.month m c) → isna c = false.
Proof. destruct c; simpl; by intros [? ?]. Qed.

(** X18.  The trend has a point for every month in which the centre has a
    dated record, and for no other; the months come in order, each once; and
    the point of a month holds what [groupby] makes of the sum of the
    participants of the records dated in that month.  A frame without a
    Date column gives the empty figure. *)
Theorem trend_points (m : Z → Z) df :
  let trend := V2.create_participants_trend m df in
  (has_column "Date" df = false → trend = []) ∧
  NoDup (map fst trend) ∧ Sorted Z.le (map fst trend) ∧
  (empty df = false → has_column "Date" df = true →
     (∀ mo, mo ∈ map fst trend ↔
            ∃ r, r ∈ rows df ∧ V2.month m (get "Date" r) = Some mo) ∧
     (∀ mo p, (mo, p) ∈ trend →
        p = group_sum
              (map (λ r, V2.number (get "Participants" r))
                   (filter (λ r, V2.month m (get "Date" r) = Some mo)
                           (rows df))))).
Proof.
  intros trend. unfold trend. rewrite create_participants_trend_eq.
  split.
  { intros ->. by rewrite orb_true_r. }
  destruct (empty df || negb (has_column "Date" df)) eqn:Hguard.
  { split; [constructor |]. split; [constructor |].
    intros He Hd. by rewrite He, Hd in Hguard. }
  cbn zeta. set (dated := filter (λ r, isna (get "Date" r) = false) (rows df)).
  set (months := merge_sort Z.le
                   (remove_dups (omap (λ r, V2.month m (get "Date" r)) dated))).
  assert (∀ mo, mo ∈ months ↔
                ∃ r, r ∈ rows df ∧ V2.month m (get "Date" r) = Some mo) as Hin.
  { intros mo. unfold months.
    rewrite merge_sort_Permutation, elem_of_remove_dups, list_elem_of_omap.
    split; intros (r & Hr & Hmo); exists r.
    - apply list_elem_of_filter in Hr as [_ Hr]. done.
    - split; [| done]. apply list_elem_of_filter. split; [| done].
      apply (month_dated m). by rewrite Hmo. }
  assert (NoDup months) as Hnd.
  { unfold months. rewrite merge_sort_Permutation. apply NoDup_remove_dups. }
  rewrite !map_map. cbn [fst]. rewrite (map_ext _ id), map_id by done.
  split; [done |]. split; [apply Sorted_merge_sort, _ |].
  intros _ _. split; [exact Hin |].
  intros mo p Hp. apply list_elem_of_fmap in Hp as (mo' & [= -> ->] & _).
  unfold V2.agg_sum. rewrite map_map. f_equal. f_equal.
  unfold dated. rewrite list_filter_filter.
  apply filter_ext_elem. intros r _. split; [tauto |].
  intros Hmo. split; [done |]. apply (month_dated m). by rewrite Hmo.
Qed.

End Trends.

Lemma integer_key_Some i z : V2.integer_key i = Some z → i = Num (Qc_of_Z z).
Proof.
  destruct i as [| q | |]; try done. unfold V2.integer_key.
  case_decide as Hq; [| done]. intros [= <-]. by rewrite <- Hq.
Qed.

Lemma integer_key_Qc_of_Z z : V2.integer_key (Num (Qc_of_Z z)) = Some z.
Proof. unfold V2.integer_key. cbn [Qnum this Qc_of_Z inject_Z]. by rewrite decide_True. Qed.

Lemma off_scale_label i :
  (∀ z, (1 ≤ z ≤ 5)%Z → i ≠ Num (Qc_of_Z z)) →
  V2.satisfaction_labels i = None ∧ V2.colors_map i = None.
Proof.
  intros Hoff. unfold V2.satisfaction_labels, V2.colors_map.
  destruct (V2.integer_key i) as [z |] eqn:E; [| done].
  apply integer_key_Some in E.
  destruct (decide (1 ≤ z ≤ 5)%Z) as [Hz | Hz].
  - by destruct (Hoff z Hz).
  - destruct z as [| p | p]; [done | | done].
    destruct p as [[[p | p |] | [p | p |] |] | [[p | p |] | [p | p |] |] |];
      try done; lia.
Qed.

Lemma on_scale_label z :
  (1 ≤ z ≤ 5)%Z →
  ∃ s, V2.satisfaction_labels (Num (Qc_of_Z z)) = Some s.
Proof.
  intros Hz. unfold V2.satisfaction_labels. rewrite integer_key_Qc_of_Z.
  assert (z = 1 ∨ z = 2 ∨ z = 3 ∨ z = 4 ∨ z = 5)%Z as Hcase by lia.
  destruct Hcase as [-> | [-> | [-> | [-> | ->]]]]; eauto.
Qed.

(** X19.  The satisfaction chart of the dashboard has one bar for every
    rating that occurs, in the order of the ratings, with the number of
    records that have it; together the bars count every record.  A rating
    of 1 to 5 carries its name; any other rating, which the loader lets
    through, gets a bar of its own labelled with the score and the default
    colour. *)
Theorem rating_bars df :
  empty df = false →
  let bars := V2.create_satisfaction_distribution df in
  NoDup (map V2.b_rating bars) ∧
  Sorted V2.key_le (map V2.b_rating bars) ∧
  (∀ i, i ∈ map V2.b_rating bars ↔ i ≠ NaN ∧ i ∈ column "Satisfaction" df) ∧
  (∀ b, b ∈ bars →
     V2.b_count b
     = length (filter (λ r, get "Satisfaction" r = V2.b_rating b) (rows df))) ∧
  sum_list (map V2.b_count bars)
  = length (filter (λ r, isna (get "Satisfaction" r) = false) (rows df)) ∧
  (∀ b z, b ∈ bars → V2.b_rating b = Num (Qc_of_Z z) → (1 ≤ z ≤ 5)%Z →
     ∃ s, V2.b_label b = V2.Named s) ∧
  (∀ b, b ∈ bars →
     (∀ z, (1 ≤ z ≤ 5)%Z → V2.b_rating b ≠ Num (Qc_of_Z z)) →
     V2.b_label b = V2.Score (V2.b_rating b) ∧ V2.b_color b = "#667eea").
Proof.
  intros Hne bars. unfold bars, V2.create_satisfaction_distribution.
  rewrite Hne. cbn zeta.
  set (counts := V2.sort_index (V2.value_counts (column "Satisfaction" df))).
  assert (counts ≡ₚ V2.value_counts (column "Satisfaction" df)) as Hperm
    by apply merge_sort_Permutation.
  rewrite !map_map. cbn [V2.b_rating V2.b_count].
  split; [| split; [| split; [| split; [| split; [| split]]]]].
  - change (NoDup (map fst counts)). rewrite Hperm, value_counts_keys.
    apply NoDup_remove_dups.
  - change (Sorted V2.key_le (fst <$> counts)).
    apply (Sorted_fmap fst V2.by_index V2.key_le); [done |].
    apply Sorted_merge_sort. intros a b. apply key_le_total.
  - intros i. change (i ∈ map fst counts ↔ i ≠ NaN ∧ i ∈ column "Satisfaction" df).
    rewrite Hperm, value_counts_keys, elem_of_remove_dups, list_elem_of_filter.
    split.
    + intros [Hna Hi]. split; [by intros -> | done].
    + intros [Hna Hi]. split; [by destruct i | done].
  - intros b Hb. apply list_elem_of_fmap in Hb as ([k n] & -> & Hkn).
    cbn [V2.b_count V2.b_rating fst snd]. rewrite Hperm in Hkn.
    apply elem_of_value_counts in Hkn as (_ & _ & ->).
    apply occurrences_column.
  - transitivity (sum_list (map snd counts)); [done |].
    rewrite Hperm, value_counts_total.
    unfold column. induction (rows df) as [| r rs IH]; [done |].
    cbn [map]. rewrite !filter_cons.
    destruct (decide (isna (get "Satisfaction" r) = false)); simpl; by rewrite IH.
  - intros b z Hb Hr Hz. apply list_elem_of_fmap in Hb as ([k n] & -> & _).
    cbn [V2.b_rating V2.b_label fst] in *. subst k.
    destruct (on_scale_label z Hz) as [s ->]. by exists s.
  - intros b Hb Hoff. apply list_elem_of_fmap in Hb as ([k n] & -> & _).
    cbn [V2.b_rating V2.b_label V2.b_color fst] in *.
    by destruct (off_scale_label k Hoff) as [-> ->].
Qed.

(** * The other resolved columns *)

Section Priorities.
Context `{Pandas}.

(** X20.  In a table whose stripped labels are all different, the programme
    of a record is resolved in the order Program Name, Course Name,
    Program: the first of these columns the table has gives the programme
    of every record, cell for cell, and a table with none of them gives
    every record the programme "Program". *)
Theorem program_priority t :
  header_ok t →
  let hdr := map strip (columns t) in
  let program := column "Program" (V2.load_all_centers_data (Parsed t)).1 in
  (∀ c, c ∈ columns t → strip c = "Program Name" →
     program = map (get c) (rows t)) ∧
  (∀ c, "Program Name" ∉ hdr → c ∈ columns t → strip c = "Course Name" →
     program = map (get c) (rows t)) ∧
  (∀ c, "Program Name" ∉ hdr → "Course Name" ∉ hdr →
     c ∈ columns t → strip c = "Program" →
     program = map (get c) (rows t)) ∧
  ("Program Name" ∉ hdr → "Course Name" ∉ hdr → "Program" ∉ hdr →
     program = map (λ _, Str "Program") (rows t)).
Proof.
  intros Hok hdr program. unfold program, hdr.
  rewrite load_frame_header_ok by done.
  assert (∀ c, c ∈ columns t →
               ∀ r, get (strip c) (strip_row t r) = get c r) as Hget.
  { intros c Hc r. apply get_strip_row; [by apply header_ok_count | done]. }
  repeat split.
  - intros c Hc Hs. apply column_normalize. intros g r (_ & -> & _).
    unfold program_value. rewrite <- Hs, has_column_stripped by done.
    rewrite copied_once by (by apply header_ok_count). by apply Hget.
  - intros c H1 Hc Hs. apply column_normalize. intros g r (_ & -> & _).
    unfold program_value.
    rewrite (has_column_unstripped t "Program Name") by done.
    rewrite <- Hs, has_column_stripped by done.
    rewrite copied_once by (by apply header_ok_count). by apply Hget.
  - intros c H1 H2 Hc Hs. apply column_normalize. intros g r (_ & -> & _).
    unfold program_value.
    rewrite (has_column_unstripped t "Program Name") by done.
    rewrite (has_column_unstripped t "Course Name") by done.
    rewrite <- Hs, has_column_stripped by done. by apply Hget.
  - intros H1 H2 H3. apply column_normalize. intros g r (_ & -> & _).
    unfold program_value.
    rewrite (has_column_unstripped t "Program Name") by done.
    rewrite (has_column_unstripped t "Course Name") by done.
    by rewrite (has_column_unstripped t "Program") by done.
Qed.

(** One key in a column that has rows gives one group. *)
Lemma group_keys_constant key df a :
  rows df ≠ [] → a ≠ NaN → (∀ r, r ∈ rows df → get key r = a) →
  V2.group_keys key df = [a].
Proof.
  intros Hne Hna Hall.
  pose proof (NoDup_group_keys key df) as Hnd.
  assert (∀ k, k ∈ V2.group_keys key df → k = a) as Hk.
  { intros k (_ & r & Hr & <-)%elem_of_group_keys. by apply Hall. }
  assert (a ∈ V2.group_keys key df) as Hin.
  { apply elem_of_group_keys. split; [done |].
    destruct (rows df) as [| r rs] eqn:E; [done |].
    exists r. split; [left |]. apply Hall. left. }
  destruct (V2.group_keys key df) as [| x [| y L]].
  - by apply elem_of_nil in Hin.
  - f_equal. apply Hk. left.
  - exfalso. apply NoDup_cons in Hnd as [Hx _]. apply Hx.
    rewrite (Hk x) by left. rewrite <- (Hk y) at 1 by (right; left). left.
Qed.

Lemma audience_perf_constant df a :
  rows df ≠ [] → a ≠ NaN → (∀ r, r ∈ rows df → get "Category" r = a) →
  V2.audience_perf df
  = [V2.mkGroup a (V2.agg_sum (column "Participants" df))
                  (V2.agg_mean (column "Satisfaction" df))].
Proof.
  intros Hne Hna Hall. unfold V2.audience_perf, V2.groupby_agg.
  rewrite (group_keys_constant "Category" df a) by done.
  cbn [map]. unfold V2.members, column.
  by rewrite filter_all by done.
Qed.

(** X21.  In a table whose stripped labels are all different, the category
    of a record is the cell of its Target Audience column when the table has
    one, else the cell of its Category column, and "General" for every
    record of a table that has neither; in that last case the audience
    ranking of a centre that has records has the single line General, made
    of all the records of the centre. *)
Theorem category_priority t :
  header_ok t →
  let hdr := map strip (columns t) in
  let df_all := (V2.load_all_centers_data (Parsed t)).1 in
  (∀ c, c ∈ columns t → strip c = "Target Audience" →
     column "Category" df_all = map (get c) (rows t)) ∧
  (∀ c, "Target Audience" ∉ hdr → c ∈ columns t → strip c = "Category" →
     column "Category" df_all = map (get c) (rows t)) ∧
  ("Target Audience" ∉ hdr → "Category" ∉ hdr →
     column "Category" df_all = map (λ _, Str "General") (rows t) ∧
     (∀ selected_centre,
        let d := V2.df_centre df_all selected_centre in
        rows d ≠ [] →
        V2.audience_perf d
        = [V2.mkGroup (Str "General")
             (V2.agg_sum (column "Participants" d))
             (V2.agg_mean (column "Satisfaction" d))])).
Proof.
  intros Hok hdr df_all. unfold df_all, hdr.
  rewrite load_frame_header_ok by done.
  assert (∀ c, c ∈ columns t →
               ∀ r, get (strip c) (strip_row t r) = get c r) as Hget.
  { intros c Hc r. apply get_strip_row; [by apply header_ok_count | done]. }
  split; [| split].
  - intros c Hc Hs. apply column_normalize. intros g r (_ & _ & _ & _ & ->).
    unfold category_value. rewrite <- Hs, has_column_stripped by done.
    rewrite copied_once by (by apply header_ok_count). by apply Hget.
  - intros c H1 Hc Hs. apply column_normalize. intros g r (_ & _ & _ & _ & ->).
    unfold category_value.
    rewrite (has_column_unstripped t "Target Audience") by done.
    rewrite <- Hs, has_column_stripped by done. by apply Hget.
  - intros H1 H2.
    assert (column "Category" (V2.normalize t)
            = map (λ _, Str "General") (rows t)) as Hgeneral.
    { apply column_normalize. intros g r (_ & _ & _ & _ & ->).
      unfold category_value.
      rewrite (has_column_unstripped t "Target Audience") by done.
      by rewrite (has_column_unstripped t "Category") by done. }
    split; [exact Hgeneral |]. intros selected_centre Hne.
    apply audience_perf_constant; [done | done |].
    intros r Hr. apply elem_of_df_centre in Hr as (Hr & _).
    assert (get "Category" r ∈ column "Category" (V2.normalize t)) as Hin
      by (by apply (list_elem_of_fmap_2 (get "Category"))).
    rewrite Hgeneral in Hin.
    by apply list_elem_of_fmap in Hin as (? & -> & _).
Qed.

End Priorities.

Lemma program_priority_witness :
  column "Program" (@V2.load_all_centers_data numerals (Parsed quran_table)).1
  = [Str "Quran Classes"; Str "Quran Classes"].
Proof.
  assert (@header_ok numerals quran_table) as Hok by by_evaluation.
  destruct (@program_priority numerals quran_table Hok) as (_ & _ & Hprog & _).
  rewrite (Hprog "Program").
  - reflexivity.
  - vm_compute. not_written.
  - vm_compute. not_written.
  - by_evaluation.
  - reflexivity.
Defined.

Lemma category_priority_witness :
  column "Category" (@V2.load_all_centers_data numerals (Parsed quran_table)).1
  = [Str "General"; Str "General"].
Proof.
  assert (@header_ok numerals quran_table) as Hok by by_evaluation.
  destruct (@category_priority numerals quran_table Hok) as (_ & _ & Hgen).
  destruct Hgen as [Hcat _].
  - vm_compute. not_written.
  - vm_compute. not_written.
  - rewrite Hcat. reflexivity.
Defined.

(** * What the loader reports *)

Lemma length_unique l :
  length (unique l) = (nunique l + if decide (NaN ∈ l) then 1 else 0)%nat.
Proof.
  unfold unique, nunique. destruct (decide (NaN ∈ l)) as [Hin | Hout].
  - rewrite Nat.add_1_r.
    change (S (length (remove_dups (filter (λ c, isna c = false) l))))
      with (length (NaN :: remove_dups (filter (λ c, isna c = false) l))).
    apply Permutation_length, NoDup_Permutation.
    + apply NoDup_remove_dups.
    + apply NoDup_cons. split; [| apply NoDup_remove_dups].
      rewrite elem_of_remove_dups, list_elem_of_filter. by intros [? _].
    + intros x. rewrite elem_of_cons, !elem_of_remove_dups, list_elem_of_filter.
      split.
      * intros Hx. destruct x; auto.
      * intros [-> | [_ Hx]]; done.
  - rewrite Nat.add_0_r. f_equal. f_equal. symmetry. apply filter_all.
    intros x Hx. destruct x; [done | done..].
Qed.

Lemma length_centre_list df cl :
  V2.centre_list df = Some cl → length cl = nunique (column "Centre" df).
Proof.
  unfold V2.centre_list, unique, nunique. intros Hcl.
  apply sorted_Some in Hcl as [Hperm _]. by apply Permutation_length.
Qed.

Section Report.
Context `{Pandas}.

(** X22.  A workbook that was read and on whose header a statement of the
    loader raises is answered with the error on the page and the empty
    frame.  Any other workbook that was read is reported with the number of
    its rows as the number of programmes; the number of centres reported
    counts the missing value as a centre: it is the number of centres
    offered for selection, plus one when some record has no centre. *)
Theorem loader_report t :
  let hdr := map strip (columns t) in
  if V2.raises hdr then
    V2.load_all_centers_data (Parsed t)
    = (empty_frame, [st_error_loading (str_exception hdr)])
  else
    ∃ centres,
      V2.load_all_centers_data (Parsed t)
      = (V2.normalize t, [st_success (length (rows t)) centres]) ∧
      centres = (nunique (column "Centre" (V2.normalize t))
                 + if decide (NaN ∈ column "Centre" (V2.normalize t))
                   then 1 else 0)%nat ∧
      ∀ cl, V2.centre_list (V2.normalize t) = Some cl →
            centres = (length cl
                       + if decide (NaN ∈ column "Centre" (V2.normalize t))
                         then 1 else 0)%nat.
Proof.
  intros hdr. unfold hdr.
  destruct (V2.raises (map strip (columns t))) eqn:Hr.
  - by apply load_raises.
  - eexists. split; [| split].
    + by apply load_completes.
    + apply length_unique.
    + intros cl Hcl. rewrite length_unique. f_equal. symmetry.
      by apply length_centre_list.
Qed.

End Report.

Lemma loader_report_witness :
  ∃ e, @V2.load_all_centers_data numerals (Parsed repeated_location_table)
       = (empty_frame, [st_error_loading e]).
Proof.
  eexists. exact (@loader_report numerals repeated_location_table).
Defined.

(** * The tables and charts on the worked frames *)

Lemma dates_coerced_witness :
  column "Date" (@V2.load_all_centers_data numerals (Parsed dated_table)).1
  = [Time 10; NaN; NaN].
Proof.
  assert (@header_ok numerals dated_table) as Hok by by_evaluation.
  destruct (@dates_coerced numerals dated_table Hok) as (Hdate & _).
  destruct (Hdate "Date") as [Hcol _].
  - by_evaluation.
  - reflexivity.
  - rewrite Hcol. reflexivity.
Defined.

(** Of eleven programmes, Story Time, the smallest, is left out of the
    ranking, and Open Day, the tenth, is shown. *)
Lemma top_ten_are_largest_witness :
  let g := V2.mkGroup (Str "Open Day") (Qc_of_Z 8) (Num (Qc_of_Z 3)) in
  let g' := V2.mkGroup (Str "Story Time") (Qc_of_Z 3) (Num (Qc_of_Z 5)) in
  (g' ∈ @V2.groupby_agg numerals "Program" eleven_programmes) ∧
  (g ∈ @V2.program_perf numerals eleven_programmes) ∧
  (g' ∉ @V2.program_perf numerals eleven_programmes) ∧
  (V2.g_participants g' ≤ V2.g_participants g)%Qc.
Proof.
  intros g g'.
  assert (g' ∈ @V2.groupby_agg numerals "Program" eleven_programmes) as Hg'.
  { apply (list_elem_of_lookup_2 _ 7). vm_compute. f_equal. by apply group_eq. }
  assert (g ∈ @V2.program_perf numerals eleven_programmes) as Hg.
  { apply (list_elem_of_lookup_2 _ 9). vm_compute. f_equal. by apply group_eq. }
  assert (g' ∉ @V2.program_perf numerals eleven_programmes) as Hout.
  { intros Hin. apply (list_elem_of_fmap_2 V2.g_key) in Hin.
    revert Hin. by_evaluation. }
  split; [exact Hg' |]. split; [exact Hg |]. split; [exact Hout |].
  destruct (@top_ten_are_largest numerals eleven_programmes g g' Hg')
    as [Hperf _].
  exact (Hperf Hg Hout).
Defined.

Lemma audience_pie_witness :
  let (slices, marker_colors) :=
    V2.create_target_audience_breakdown dashboard_frame in
  NoDup (map fst slices) ∧
  (∀ k, k ∈ map fst slices ↔ k ≠ NaN ∧ k ∈ column "Category" dashboard_frame) ∧
  sum_list (map snd slices)
  = length (filter (λ r, isna (get "Category" r) = false)
                   (rows dashboard_frame)) ∧
  length marker_colors = Nat.min (length slices) 7.
Proof. exact (audience_pie dashboard_frame eq_refl). Defined.

Lemma distribution_top_ten_witness :
  2%nat = length (filter (λ r, get "Program" r = Str "Quran Classes")
                         (rows dashboard_frame)) ∧
  ∀ k', k' ≠ NaN → k' ∈ column "Program" dashboard_frame →
        k' ∉ map fst (V2.create_program_distribution dashboard_frame) →
        (length (filter (λ r, get "Program" r = k') (rows dashboard_frame))
         ≤ 2)%nat.
Proof.
  apply (distribution_top_ten dashboard_frame (Str "Quran Classes") 2).
  vm_compute. apply list_elem_of_here.
Defined.

Lemma metrics_totals_witness :
  let m := @V2.calculate_metrics numerals dashboard_frame in
  V2.total_programs m = length (rows dashboard_frame) ∧
  (1 ≤ V2.total_programs m)%nat ∧
  (V2.unique_programs m ≤ V2.total_programs m)%nat ∧
  (V2.target_audiences m ≤ V2.total_programs m)%nat ∧
  V2.total_participants m
  = V2.int (@nansum numerals
              (map (λ r, V2.number (get "Participants" r))
                   (rows dashboard_frame))).
Proof. exact (@metrics_totals numerals dashboard_frame eq_refl). Defined.

Lemma centre_selection_witness :
  NoDup [Str "A"; Str "B"] ∧ Sorted V2.key_le [Str "A"; Str "B"] ∧
  (∀ c, c ∈ [Str "A"; Str "B"] ↔
        c ≠ NaN ∧ c ∈ column "Centre" dashboard_frame) ∧
  (∀ c r, r ∈ rows (V2.df_centre dashboard_frame c) ↔
          r ∈ rows dashboard_frame ∧ get "Centre" r = c ∧ c ≠ NaN) ∧
  sum_list (map (λ c, length (rows (V2.df_centre dashboard_frame c)))
                [Str "A"; Str "B"])
  = length (filter (λ r, isna (get "Centre" r) = false) (rows dashboard_frame)).
Proof.
  apply (centre_selection dashboard_frame). vm_compute. reflexivity.
Defined.

Lemma audience_selection_witness :
  let d := V2.select_audience dashboard_frame (Str "Youth") in
  (∀ r, r ∈ rows d ↔
        r ∈ rows dashboard_frame ∧ get "Category" r = Str "Youth" ∧
        Str "Youth" ≠ NaN) ∧
  V2.target_audiences (@V2.calculate_metrics numerals d) = 1%nat ∧
  (V2.total_programs (@V2.calculate_metrics numerals d)
   ≤ length (rows dashboard_frame))%nat.
Proof.
  apply (@audience_selection numerals dashboard_frame (Str "Youth")).
  vm_compute. reflexivity.
Defined.

Lemma dashboard_frame_rated :
  ∀ r, r ∈ rows dashboard_frame → rating_at_least (Qc_of_Z 1) r.
Proof.
  intros r Hr. cbn [rows dashboard_frame] in Hr. each_row Hr.
  all: apply (proj1 (Z2Qc_inj_le _ _)); lia.
Defined.

Lemma default_view_witness :
  let shown :=
    V2.filtered_df dashboard_frame (V2.default_program_filter dashboard_frame)
      (V2.default_category_filter dashboard_frame)
      V2.default_satisfaction_filter in
  shown = filter (λ r, get "Program" r
                       ∈ take 5 (unique_in_order
                                   (column "Program" dashboard_frame)))
                 (rows dashboard_frame) ∧
  ((length (unique_in_order (column "Program" dashboard_frame)) ≤ 5)%nat →
   shown = rows dashboard_frame).
Proof. exact (default_view dashboard_frame dashboard_frame_rated). Defined.

Lemma filter_narrows_witness :
  V2.filtered_df dashboard_frame [Str "Tafsir"] [Str "Women"] (Qc_of_Z 3)
    `sublist_of`
    V2.filtered_df dashboard_frame [Str "Tafsir"; Str "Quran Classes"]
      [Str "Women"; Str "Youth"] (Qc_of_Z 1) ∧
  V2.filtered_df dashboard_frame [Str "Tafsir"; Str "Quran Classes"]
    [Str "Women"; Str "Youth"] (Qc_of_Z 1)
    `sublist_of` rows dashboard_frame.
Proof.
  apply filter_narrows.
  - intros x Hx. apply list_elem_of_singleton in Hx as ->. left.
  - intros x Hx. apply list_elem_of_singleton in Hx as ->. left.
  - apply (proj1 (Z2Qc_inj_le _ _)). lia.
Defined.

Lemma rating_bars_witness :
  length (V2.create_satisfaction_distribution dashboard_frame) = 3%nat ∧
  sum_list (map V2.b_count (V2.create_satisfaction_distribution dashboard_frame))
  = length (filter (λ r, isna (get "Satisfaction" r) = false)
                   (rows dashboard_frame)).
Proof.
  split; [vm_compute; reflexivity |].
  destruct (rating_bars dashboard_frame eq_refl) as (_ & _ & _ & _ & Hsum & _).
  exact Hsum.
Defined.

(** * From the workbook to the metrics of a centre *)

Lemma empty_false df c r : c ∈ columns df → r ∈ rows df → empty df = false.
Proof.
  intros Hc Hr. unfold empty.
  destruct (columns df); [by apply elem_of_nil in Hc |].
  destruct (rows df); [by apply elem_of_nil in Hr | done].
Qed.

Section Selected.
Context `{Pandas}.

Lemma selected_centre_frame df cl c :
  canonical df → "Centre" ∈ columns df →
  V2.centre_list df = Some cl → c ∈ cl →
  empty (V2.df_centre df c) = false ∧
  canonical (V2.df_centre df c) ∧
  (1 ≤ V2.total_programs (V2.calculate_metrics (V2.df_centre df c)))%nat ∧
  ∃ s, V2.avg_satisfaction (V2.calculate_metrics (V2.df_centre df c)) = Num s ∧
       V2.series_mean (column "Satisfaction" (V2.df_centre df c)) = Num s.
Proof.
  intros Hdf Hcol Hcl Hc.
  unfold V2.centre_list, unique in Hcl. apply sorted_Some in Hcl as [Hperm _].
  rewrite Hperm in Hc.
  apply elem_of_remove_dups, list_elem_of_filter in Hc as [Hna Hc].
  unfold column in Hc. apply list_elem_of_fmap in Hc as (r & -> & Hr).
  set (d := V2.df_centre df (get "Centre" r)).
  assert (r ∈ rows d) as Hrd.
  { apply elem_of_df_centre. split; [done |]. split; [done |].
    intros Heq. by rewrite Heq in Hna. }
  assert (canonical d) as Hcan by by apply df_centre_canonical.
  assert (empty d = false) as Hne by by apply (empty_false d "Centre" r).
  split; [done |]. split; [done |].
  unfold V2.calculate_metrics. rewrite Hne.
  cbn [V2.total_programs V2.avg_satisfaction]. split.
  - destruct (rows d); [by apply elem_of_nil in Hrd | simpl; lia].
  - destruct (Hcan r Hrd) as (_ & s & Hs).
    destruct (series_mean_number (column "Satisfaction" d) s) as [m Hm].
    + rewrite <- Hs. unfold column.
      by apply (list_elem_of_fmap_2 (get "Satisfaction")).
    + exists m. by rewrite Hm.
Qed.

(** X23.  Every centre offered for selection has records: for a centre of
    the list, the frame behind the dashboard is never empty, so the metrics
    do not come from the guard for the empty frame; Total Programs is at
    least 1 and the mean rating is a number, the mean of the ratings of the
    centre's records. *)
Theorem selected_centre_metrics t cl c :
  V2.centre_list (V2.normalize t) = Some cl → c ∈ cl →
  let d := V2.df_centre (V2.normalize t) c in
  empty d = false ∧
  canonical d ∧
  (1 ≤ V2.total_programs (V2.calculate_metrics d))%nat ∧
  ∃ s, V2.avg_satisfaction (V2.calculate_metrics d) = Num s ∧
       V2.series_mean (column "Satisfaction" d) = Num s.
Proof.
  intros Hcl Hc. cbv zeta.
  apply (selected_centre_frame _ cl); [| | done | done].
  - apply normalize_canonical.
  - apply elem_of_columns_normalize. right. left.
Qed.

End Selected.

Lemma selected_centre_metrics_witness :
  let d := V2.df_centre (@V2.normalize numerals quran_table) (Str "A") in
  empty d = false ∧
  canonical d ∧
  (1 ≤ V2.total_programs (@V2.calculate_metrics numerals d))%nat ∧
  ∃ s, V2.avg_satisfaction (@V2.calculate_metrics numerals d) = Num s ∧
       @V2.series_mean numerals (column "Satisfaction" d) = Num s.
Proof.
  apply (@selected_centre_metrics numerals quran_table [Str "A"] (Str "A")).
  - vm_compute. reflexivity.
  - left.
Defined.
